(** * Data Dashboard: series resolution, fetching, cleaning and alignment

    A shallow embedding of the data pipeline of [src/App.jsx]: the static
    tables ([SERIES_OVERRIDES], [INDICATORS], [MSAS]), the planner
    ([plannedSeries]), the effect that discovers series ids and fetches the
    missing series ([fetchMissing]), the alignment ([unifiedDates]) and the
    table view ([tableData]), followed by the properties of the
    specification that concern them.

    Conventions.
    - JavaScript strings are byte strings ([string]); the patterns of the
      source are ASCII, so a match on UTF-16 code units and a match on
      UTF-8 bytes agree.
    - JavaScript numbers are binary64 floats ([float]).
    - A property read that may yield [undefined] is an [option]; the
      truthiness tests of the source ([||], [?:], [!]) are written out.
    - The two state objects used as dictionaries ([seriesCache],
      [seriesIdMap]) are finite maps keyed by strings; the keys the program
      builds are series ids and [indicator|cbsa] pairs, never a name
      inherited from [Object.prototype].
    - In the session model ([run]) a run of the effect is one turn: runs
      do not overlap.  The properties of a single run ([effect]) are stated
      on the state of the render that started it, and those of its two
      state updates ([cacheUpdate], [idMapUpdate]) on any state they may
      be applied to, so they hold for overlapping runs too.
    - Presentation-only members (value formatters, styling constants,
      chart options) are left out. *)

From Stdlib Require Import Floats Ascii String List Sorted Permutation ZArith Lia OrdersEx.
From stdpp Require Import gmap strings list.

Open Scope string_scope.

(** ** Strings and regular-expression tests *)

Module Str.

(** ASCII upper-casing of one code unit: what the [i] flag of a
    non-unicode regular expression does to an ASCII letter; every other
    code unit is left alone. *)
Definition upper1 (c : ascii) : ascii :=
  let n := nat_of_ascii c in
  if (97 <=? n)%nat && (n <=? 122)%nat then ascii_of_nat (n - 32) else c.

Fixpoint upper (s : string) : string :=
  match s with
  | EmptyString => EmptyString
  | String c r => String (upper1 c) (upper r)
  end.

(** [includes p s]: [p] occurs in [s] as a contiguous substring. *)
Fixpoint includes (p s : string) : bool :=
  String.prefix p s ||
  match s with
  | EmptyString => false
  | String _ r => includes p r
  end.

(** [/^p/i.test(s)] for a literal ASCII pattern [p]. *)
Definition testPrefixI (p s : string) : bool := String.prefix (upper p) (upper s).

(** [/p/i.test(s)] for a literal ASCII pattern [p]. *)
Definition testI (p s : string) : bool := includes (upper p) (upper s).

(** [new RegExp(p).test(s)] for a pattern [p] without metacharacters, which
    is what a CBSA code (a string of digits) is: a literal substring test. *)
Definition test (p s : string) : bool := includes p s.

(** [a.localeCompare(b)] on the date strings of the provider (ISO
    [yyyy-mm-dd], digits and hyphens at fixed positions), where the
    collation order is the order of the code units: negative, zero or
    positive. *)
Definition localeCompare (a b : string) : Z :=
  match String.compare a b with
  | Lt => (-1)%Z
  | Eq => 0%Z
  | Gt => 1%Z
  end.

End Str.

(** ** Truthiness of an optional string *)

(** [undefined] and the empty string are falsy, every other string is
    truthy. *)
Definition truthy (v : option string) : bool :=
  match v with
  | Some s => negb (String.eqb s "")
  | None => false
  end.

(** [a || b] on optional strings. *)
Definition jsOr (a b : option string) : option string :=
  if truthy a then a else b.

(** ** The static tables *)

(** A candidate record of the search endpoint. *)
Record SeriesItem := { item_id : string; title : string }.

(** The context handed to a pick function. *)
Record PickCtx := { ctx_cbsa : string; ctx_msaName : string }.

Record Indicator := {
  label : string;
  seriesIdForCbsa : string -> string;
  transformValue : option (float -> float);
  needsDiscovery : bool;
  searchText : option (string -> string);
  pickSeries : option (list SeriesItem -> PickCtx -> option string)
}.

Inductive IndicatorKey := EMP_RATE | HOUSING_HPI | GDP.

Definition keyName (k : IndicatorKey) : string :=
  match k with
  | EMP_RATE => "EMP_RATE"
  | HOUSING_HPI => "HOUSING_HPI"
  | GDP => "GDP"
  end.

(** [SERIES_OVERRIDES]: indicatorKey|CBSA -> seriesId. *)
Definition SERIES_OVERRIDES : gmap string string :=
  <["HOUSING_HPI|33100" := "ACTLISCOU33100"]>
  (<["HOUSING_HPI|45300" := "ACTLISCOU45300"]>
  (<["HOUSING_HPI|36740" := "ACTLISCOU36740"]> ∅)).

Definition EMP_RATE_pickSeries (items : list SeriesItem) (_ : PickCtx) : option string :=
  let candidates :=
    List.filter (fun s => Str.testPrefixI "LAUMT" (item_id s)
                          && Str.testI "Unemployment Rate" (title s)) items in
  jsOr (item_id <$> head candidates) (item_id <$> head items).

Definition HOUSING_HPI_pickSeries (items : list SeriesItem) (ctx : PickCtx) : option string :=
  let cbsa := ctx_cbsa ctx in
  let candidates :=
    List.filter (fun s => Str.testPrefixI "ACTLISCOU" (item_id s)
                          && Str.testI "Active Listing Count" (title s)) items in
  let byCbsa := List.find (fun s => Str.test cbsa (item_id s)) candidates in
  match byCbsa with
  | Some s => Some (item_id s)
  | None =>
      match head candidates with
      | Some s => Some (item_id s)
      | None => item_id <$> head items
      end
  end.

Definition INDICATORS (k : IndicatorKey) : Indicator :=
  match k with
  | EMP_RATE =>
      {| label := "Employment Rate";
         seriesIdForCbsa := fun cbsa => "LAUMT12" ++ cbsa ++ "0000000003";
         transformValue := Some (fun v => PrimFloat.sub 100%float v);
         needsDiscovery := true;
         searchText := Some (fun msaName => msaName ++ " Unemployment Rate");
         pickSeries := Some EMP_RATE_pickSeries |}
  | HOUSING_HPI =>
      {| label := "Housing Inventory: Active Listing Count";
         seriesIdForCbsa := fun cbsa => "ACTLISCOU" ++ cbsa;
         transformValue := None;
         needsDiscovery := true;
         searchText :=
           Some (fun msaName => "Housing Inventory: Active Listing Count in " ++ msaName);
         pickSeries := Some HOUSING_HPI_pickSeries |}
  | GDP =>
      {| label := "GDP";
         seriesIdForCbsa := fun cbsa => "RGMP" ++ cbsa;
         transformValue := None;
         needsDiscovery := false;
         searchText := None;
         pickSeries := None |}
  end.

Record Msa := { name : string; msa_cbsa : string }.

Definition MSAS : list Msa :=
  [ {| name := "Miami–Fort Lauderdale–West Palm Beach, FL"; msa_cbsa := "33100" |};
    {| name := "Tampa–St. Petersburg–Clearwater, FL"; msa_cbsa := "45300" |};
    {| name := "Orlando–Kissimmee–Sanford, FL"; msa_cbsa := "36740" |};
    {| name := "Atlanta–Sandy Springs–Roswell, GA"; msa_cbsa := "12060" |} ].

(** [a || b] where [b] is a string: [a] when it is truthy, else [b]. *)
Definition orString (a : option string) (b : string) : string :=
  match a with
  | Some s => if String.eqb s "" then b else s
  | None => b
  end.

(** ** Sorting *)

(** [Array.prototype.sort] is stable; with a consistent comparator its
    result is the one stable sorted rearrangement of the array, which
    insertion from the right computes. *)
Fixpoint insertBy {A : Type} (cmp : A -> A -> Z) (x : A) (l : list A) : list A :=
  match l with
  | [] => [x]
  | h :: t => if (cmp x h <=? 0)%Z then x :: h :: t else h :: insertBy cmp x t
  end.

Definition sortBy {A : Type} (cmp : A -> A -> Z) (l : list A) : list A :=
  fold_right (insertBy cmp) [] l.

(** [l.slice(-n)]: the last [n] elements, all of [l] when it is shorter. *)
Definition sliceLast {A : Type} (n : nat) (l : list A) : list A :=
  skipn (length l - n) l.

(** ** Observations, planned series and the session state *)

(** A record of the observations endpoint; [raw_value] is a numeral or the
    marker ["."]. *)
Record RawObservation := { raw_date : string; raw_value : string }.

Record Observation := { date : string; value : float }.

Record Planned := { cbsa : string; msaName : string; seriesId : string }.

Record State := {
  indicatorKey : IndicatorKey;
  selectedMsas : list string;
  seriesCache : gmap string (list Observation);
  seriesIdMap : gmap string string;
  loading : bool;
  error : string
}.

(** The state of a fresh session ([useState] initial values). *)
Definition initialState : State :=
  {| indicatorKey := EMP_RATE;
     selectedMsas := ["33100"; "45300"];
     seriesCache := ∅;
     seriesIdMap := ∅;
     loading := false;
     error := "" |}.

Definition overrideKey (k : IndicatorKey) (cbsa : string) : string :=
  keyName k ++ "|" ++ cbsa.

(** One entry of [plannedSeries]. *)
Definition planOne (k : IndicatorKey) (idMap : gmap string string) (cbsa : string) : Planned :=
  let msaName :=
    orString (name <$> List.find (fun m => String.eqb (msa_cbsa m) cbsa) MSAS) cbsa in
  let key := overrideKey k cbsa in
  let staticOverride := SERIES_OVERRIDES !! key in
  let dynamicOverride := idMap !! key in
  let seriesId :=
    orString staticOverride
      (orString dynamicOverride (seriesIdForCbsa (INDICATORS k) cbsa)) in
  {| cbsa := cbsa; msaName := msaName; seriesId := seriesId |}.

Definition plannedSeriesOf (k : IndicatorKey) (idMap : gmap string string)
    (selected : list string) : list Planned :=
  map (planOne k idMap) selected.

Definition plannedSeries (st : State) : list Planned :=
  plannedSeriesOf (indicatorKey st) (seriesIdMap st) (selectedMsas st).

(** ** The provider *)

Inductive Request :=
  | Search (search_text : string)
  | Observations (series_id : string).

(** What a request comes back with: the promise rejects (no connection, a
    body that is not JSON), or a response without [ok], or a response with
    [ok] and its parsed body. *)
Inductive Response (A : Type) :=
  | Rejected
  | HttpError (status : nat)
  | HttpOk (json : A).
Arguments Rejected {A}.
Arguments HttpError {A} status.
Arguments HttpOk {A} json.

(** The answers of the provider during one run of the effect, as a function
    of the request: a search is identified by its query text, an
    observations request by its series id (the rest of either URL is
    constant). The body of a search carries [seriess], that of an
    observations request [observations]; either member may be absent. *)
Record Provider := {
  search : string -> Response (option (list SeriesItem));
  observations : string -> Response (option (list RawObservation))
}.

(** [Promise.all] over the callbacks of a [map]: every callback runs up to
    its request, so all requests are issued; the whole rejects when one
    callback throws. *)
Fixpoint allResolved {B : Type} (rs : list (option B)) : option (list B) :=
  match rs with
  | [] => Some []
  | r :: rest =>
      match r, allResolved rest with
      | Some b, Some bs => Some (b :: bs)
      | _, _ => None
      end
  end.

Definition promiseAll {A B : Type} (f : A -> list Request * option B) (l : list A)
    : list Request * option (list B) :=
  (concat (map (fun a => fst (f a)) l), allResolved (map (fun a => snd (f a)) l)).

(** [l.filter(Boolean)] on a list of pairs and [null]s. *)
Fixpoint nonNull {B : Type} (l : list (option B)) : list B :=
  match l with
  | [] => []
  | Some b :: rest => b :: nonNull rest
  | None :: rest => nonNull rest
  end.

Definition isEmpty {A : Type} (l : list A) : bool :=
  match l with [] => true | _ => false end.

(** [!cache[id]]: an entry of the cache is an array, which is truthy. *)
Definition notCached (cache : gmap string (list Observation)) (id : string) : bool :=
  match cache !! id with Some _ => false | None => true end.

(** [plannedSeries.filter((p) => !seriesCache[p.seriesId])]. *)
Definition missingSeries (cache : gmap string (list Observation)) (planned : list Planned)
    : list Planned :=
  List.filter (fun p => notCached cache (seriesId p)) planned.

Definition insertAll {V : Type} (m : gmap string V) (entries : list (string * V))
    : gmap string V :=
  fold_left (fun next kv => <[fst kv := snd kv]> next) entries m.

Section App.

(** The built-in conversion [Number(s)] of a string to a number. *)
Variable Number : string -> float.

(** The callback of the cleaning [map]. *)
Definition cleanRecord (indicator : Indicator) (d : RawObservation) : Observation :=
  let raw := Number (raw_value d) in
  let val := match transformValue indicator with
             | Some f => f raw
             | None => raw
             end in
  {| date := raw_date d; value := val |}.

(** The cleaning of the body of an observations response. *)
Definition cleanObservations (indicator : Indicator)
    (json_observations : option (list RawObservation)) : list Observation :=
  sortBy (fun a b => Str.localeCompare (date a) (date b))
    (map (cleanRecord indicator)
       (List.filter (fun d => negb (String.eqb (raw_value d) "."))
          (default [] json_observations))).

(** The callback of the discovery [map]: [Some None] is a returned [null],
    [None] a thrown exception. *)
Definition discoverOne (k : IndicatorKey) (idMap : gmap string string)
    (prov : Provider) (p : Planned) : list Request * option (option (string * string)) :=
  let indicator := INDICATORS k in
  let key := overrideKey k (cbsa p) in
  if truthy (idMap !! key) then ([], Some None)
  else
    match searchText indicator with
    | None => ([], None)
    | Some text =>
        let q := text (msaName p) in
        ([Search q],
         match search prov q with
         | Rejected => None
         | HttpError _ => Some None
         | HttpOk json =>
             let items := default [] json in
             if isEmpty items then Some None
             else
               let picked :=
                 match pickSeries indicator with
                 | Some pick => pick items {| ctx_cbsa := cbsa p; ctx_msaName := msaName p |}
                 | None => item_id <$> head items
                 end in
               Some (match picked with
                     | Some s => if String.eqb s "" then None else Some (key, s)
                     | None => None
                     end)
         end)
    end.

(** The callback of the fetch [map]. *)
Definition fetchOne (indicator : Indicator) (prov : Provider) (p : Planned)
    : list Request * option (string * list Observation) :=
  ([Observations (seriesId p)],
   match observations prov (seriesId p) with
   | Rejected => None
   | HttpError _ => None
   | HttpOk json => Some (seriesId p, cleanObservations indicator json)
   end).

(** The state once [fetchMissing] has settled. The local flag [aborted] is
    never set (the effect returns no clean-up), so every guarded update
    happens; [setError] is only ever called with the empty string, at the
    start and in the [catch]; [finally] leaves [loading] false. *)
Definition settled (st : State) (idMap : gmap string string)
    (cache : gmap string (list Observation)) : State :=
  {| indicatorKey := indicatorKey st;
     selectedMsas := selectedMsas st;
     seriesCache := cache;
     seriesIdMap := idMap;
     loading := false;
     error := "" |}.

(** [fetchMissing], run to completion against the answers [prov] from the
    state [st] of the render that started it: the state it leaves and the
    requests it issued, in order. *)
Definition fetchMissing (prov : Provider) (st : State) : State * list Request :=
  let k := indicatorKey st in
  let indicator := INDICATORS k in
  let planned := plannedSeries st in
  let '(searches, discoveries) :=
    if needsDiscovery indicator
    then promiseAll (discoverOne k (seriesIdMap st) prov) planned
    else ([], Some []) in
  match discoveries with
  | None => (settled st (seriesIdMap st) (seriesCache st), searches)
  | Some ds =>
      let entries := nonNull ds in
      let idMap := if isEmpty entries then seriesIdMap st
                   else insertAll (seriesIdMap st) entries in
      let missing := missingSeries (seriesCache st) planned in
      if isEmpty missing then (settled st idMap (seriesCache st), searches)
      else
        let '(fetches, results) := promiseAll (fetchOne indicator prov) missing in
        match results with
        | None => (settled st idMap (seriesCache st), (searches ++ fetches)%list)
        | Some rs => (settled st idMap (insertAll (seriesCache st) rs), (searches ++ fetches)%list)
        end
  end.

(** The effect runs [fetchMissing] only with an API key. *)
Definition effect (apiKey : option string) (prov : Provider) (st : State)
    : State * list Request :=
  if truthy apiKey then fetchMissing prov st else (st, []).

End App.

(** ** Alignment and the table view *)

(** [seriesCache[seriesId] || []]. *)
Definition rowsOf (cache : gmap string (list Observation)) (id : string) : list Observation :=
  default [] (cache !! id).

(** [dateSet.add(x)]: a [Set] keeps its members in insertion order and
    ignores a member it already has. *)
Definition setAdd (dateSet : list string) (x : string) : list string :=
  if existsb (String.eqb x) dateSet then dateSet else (dateSet ++ [x])%list.

Definition dateSetOf (cache : gmap string (list Observation)) (planned : list Planned)
    : list string :=
  fold_left
    (fun dateSet p =>
       fold_left (fun dateSet r => setAdd dateSet (date r))
         (rowsOf cache (seriesId p)) dateSet)
    planned [].

Definition unifiedDates (cache : gmap string (list Observation)) (planned : list Planned)
    : list string :=
  sortBy Str.localeCompare (dateSetOf cache planned).

(** [new Map(rows.map(r => [r.date, r.value]))] read at [d]: [has(d) ?
    get(d) : null]; a later row replaces an earlier one of the same date. *)
Fixpoint dateToVal (rows : list Observation) (d : string) : option float :=
  match rows with
  | [] => None
  | r :: rest =>
      match dateToVal rest d with
      | Some v => Some v
      | None => if String.eqb (date r) d then Some (value r) else None
      end
  end.

Record TableRow := { row_date : string; values : list (option float) }.

Inductive TableData :=
  | Single (rows : list Observation)
  | Multi (dates : list string) (rows : list TableRow).

Definition mode (t : TableData) : string :=
  match t with
  | Single _ => "single"
  | Multi _ _ => "multi"
  end.

Definition tableData (cache : gmap string (list Observation)) (planned : list Planned)
    : TableData :=
  match planned with
  | [only] => Single (rowsOf cache (seriesId only))
  | _ =>
      let lastDates := sliceLast 12 (unifiedDates cache planned) in
      Multi lastDates
        (map (fun date =>
                {| row_date := date;
                   values := map (fun p => dateToVal (rowsOf cache (seriesId p)) date)
                               planned |})
           lastDates)
  end.

(** [latestRows]: each planned series with its last cached observation,
    [undefined] when it has none (rendered as "No data"). *)
Definition latestRows (cache : gmap string (list Observation)) (planned : list Planned)
    : list (Planned * option Observation) :=
  map (fun p => (p, last (rowsOf cache (seriesId p)))) planned.

(** The body of the single-region table: [tableData.rows.slice(-50)]. *)
Definition singleTableBody (rows : list Observation) : list Observation :=
  sliceLast 50 rows.

(** ** Event handlers *)

Definition onSelectIndicator (k : IndicatorKey) (st : State) : State :=
  {| indicatorKey := k;
     selectedMsas := selectedMsas st;
     seriesCache := ∅;
     seriesIdMap := ∅;
     loading := loading st;
     error := error st |}.

Definition toggle (cbsa : string) (prev : list string) : list string :=
  if existsb (String.eqb cbsa) prev
  then List.filter (fun id => negb (String.eqb id cbsa)) prev
  else (prev ++ [cbsa])%list.

Definition withSelected (sel : list string) (st : State) : State :=
  {| indicatorKey := indicatorKey st;
     selectedMsas := sel;
     seriesCache := seriesCache st;
     seriesIdMap := seriesIdMap st;
     loading := loading st;
     error := error st |}.

Definition onToggleMsa (cbsa : string) (st : State) : State :=
  withSelected (toggle cbsa (selectedMsas st)) st.

Definition onClearAll (st : State) : State := withSelected [] st.

(** ** Sessions *)

Inductive Event :=
  | SelectIndicator (k : IndicatorKey)
  | ToggleMsa (cbsa : string)
  | ClearAll
  | RunEffect (prov : Provider).

Section Session.

Variable Number : string -> float.

(** [import.meta.env.VITE_FRED_API_KEY]. *)
Variable apiKey : option string.

(** One turn of the session: a handler, or the effect run to completion
    against the answers [prov] of the provider. The next state comes with
    the requests the turn issued, in order. *)
Definition step (ev : Event) (st : State) : State * list Request :=
  match ev with
  | SelectIndicator k => (onSelectIndicator k st, [])
  | ToggleMsa c => (onToggleMsa c st, [])
  | ClearAll => (onClearAll st, [])
  | RunEffect prov => effect Number apiKey prov st
  end.

Fixpoint run (evs : list Event) (st : State) : State * list Request :=
  match evs with
  | [] => (st, [])
  | ev :: rest =>
      let '(st1, r1) := step ev st in
      let '(st2, r2) := run rest st1 in
      (st2, (r1 ++ r2)%list)
  end.

End Session.

(** ** A conversion for plain decimal numerals *)

Module Decimal.

Definition ofZ (z : Z) : float := PrimFloat.of_uint63 (Uint63.of_Z z).

Definition digitOf (c : ascii) : option Z :=
  let n := nat_of_ascii c in
  if (48 <=? n)%nat && (n <=? 57)%nat then Some (Z.of_nat (n - 48)) else None.

(** Reads [digits] or [digits.digits]: the digits as one integer, the
    number of digits after the point, and whether a digit was seen. *)
Fixpoint parts (s : string) (m : Z) (k : option nat) (seen : bool)
    : option (Z * nat) :=
  match s with
  | EmptyString => if seen then Some (m, default 0%nat k) else None
  | String c r =>
      if Ascii.eqb c "."
      then match k with
           | None => parts r m (Some 0%nat) seen
           | Some _ => None
           end
      else match digitOf c with
           | Some d => parts r (10 * m + d)%Z (S <$> k) true
           | None => None
           end
  end.

Definition unsigned (s : string) : float :=
  match parts s 0%Z None false with
  | Some (m, k) => PrimFloat.div (ofZ m) (ofZ (10 ^ Z.of_nat k))
  | None => PrimFloat.nan
  end.

(** [Number(s)] on the numerals the provider sends: an optional minus
    sign, digits, an optional fraction (exact up to 15 significant
    digits); the empty string is 0 and anything else is NaN. *)
Definition Number (s : string) : float :=
  match s with
  | EmptyString => 0%float
  | String "-" r => PrimFloat.opp (unsigned r)
  | _ => unsigned s
  end.

End Decimal.

(** * Vocabulary of the properties *)

(** ** The pick function of HOUSING_HPI *)

(** The filter pattern: an id that starts with ACTLISCOU and a title that
    contains "Active Listing Count", letter case ignored. *)
Definition matchesFilter (s : SeriesItem) : Prop :=
  (exists r, Str.upper (item_id s) = "ACTLISCOU" ++ r) /\
  (exists a b, Str.upper (title s) = a ++ "ACTIVE LISTING COUNT" ++ b).

Definition idContains (cbsa : string) (s : SeriesItem) : Prop :=
  exists a b, item_id s = a ++ cbsa ++ b.

(** [FirstWith P items s]: [s] is the first member of [items] with [P]. *)
Definition FirstWith (P : SeriesItem -> Prop) (items : list SeriesItem) (s : SeriesItem) : Prop :=
  exists before after,
    items = (before ++ s :: after)%list /\ P s /\ Forall (fun x => ~ P x) before.

(** The three-step preference of the pick function. *)
Inductive Preferred (cbsa : string) (items : list SeriesItem) : SeriesItem -> Prop :=
  | PreferByCbsa s :
      FirstWith (fun x => matchesFilter x /\ idContains cbsa x) items s ->
      Preferred cbsa items s
  | PreferFiltered s :
      Forall (fun x => ~ (matchesFilter x /\ idContains cbsa x)) items ->
      FirstWith matchesFilter items s ->
      Preferred cbsa items s
  | PreferFirst s rest :
      Forall (fun x => ~ matchesFilter x) items ->
      items = s :: rest ->
      Preferred cbsa items s.

Definition isCandidate (s : SeriesItem) : bool :=
  Str.testPrefixI "ACTLISCOU" (item_id s) && Str.testI "Active Listing Count" (title s).

(** ** Order *)

Definition cmpLe {A : Type} (cmp : A -> A -> Z) (a b : A) : Prop := (cmp a b <= 0)%Z.

Definition dateLe (a b : string) : Prop := (Str.localeCompare a b <= 0)%Z.
Definition dateLt (a b : string) : Prop := (Str.localeCompare a b < 0)%Z.


(** ** Requests of a run of the effect *)

(** The searches of the discovery step: those of its callbacks, in the
    order of the planned series. *)
Definition searchesOf (prov : Provider) (st : State) : list Request :=
  if needsDiscovery (INDICATORS (indicatorKey st))
  then concat (map (fun p => fst (discoverOne (indicatorKey st) (seriesIdMap st) prov p))
                 (plannedSeries st))
  else [].

(** The observations requests of a fetch batch: one per missing series. *)
Definition fetchesOf (st : State) : list Request :=
  map (fun p => Observations (seriesId p))
    (missingSeries (seriesCache st) (plannedSeries st)).

(** What the discovery step resolves to: the callbacks' results, or
    nothing when one of them throws. *)
Definition discoveriesOf (prov : Provider) (st : State)
    : option (list (option (string * string))) :=
  if needsDiscovery (INDICATORS (indicatorKey st))
  then allResolved
         (map (fun p => snd (discoverOne (indicatorKey st) (seriesIdMap st) prov p))
            (plannedSeries st))
  else Some [].

(** The resolved-id map once the discovered entries are merged in. *)
Definition discoveredMap (st : State) (ds : list (option (string * string)))
    : gmap string string :=
  if isEmpty (nonNull ds) then seriesIdMap st else insertAll (seriesIdMap st) (nonNull ds).

(** What the fetch batch resolves to: the callbacks' results, or nothing
    when one of them throws. *)
Definition resultsOf (Number : string -> float) (prov : Provider) (st : State)
    : option (list (string * list Observation)) :=
  allResolved
    (map (fun p => snd (fetchOne Number (INDICATORS (indicatorKey st)) prov p))
       (missingSeries (seriesCache st) (plannedSeries st))).

(** ** Sessions without an indicator switch *)

Definition isSwitch (ev : Event) : bool :=
  match ev with
  | SelectIndicator _ => true
  | _ => false
  end.

Definition noSwitch (evs : list Event) : bool :=
  forallb (fun ev => negb (isSwitch ev)) evs.

(** ** Order of observations *)

Definition byDate (a b : Observation) : Z := Str.localeCompare (date a) (date b).

(** Ascending by date, and strictly ascending by date. *)
Definition ascending (rows : list Observation) : Prop :=
  StronglySorted (fun a b => dateLe (date a) (date b)) rows.

Definition strictlyAscending (rows : list Observation) : Prop :=
  StronglySorted (fun a b => dateLt (date a) (date b)) rows.

(** Every series of the cache is the cleaning of some response body. *)
Definition cleanedCache (Number : string -> float)
    (cache : gmap string (list Observation)) : Prop :=
  forall id rows, cache !! id = Some rows ->
    exists indicator json, rows = cleanObservations Number indicator json.

(** ** What the table shows *)

(** [d] is a date of a row stored in the cache under the id of a planned
    series. *)
Definition OnAxis (cache : gmap string (list Observation)) (planned : list Planned)
    (d : string) : Prop :=
  exists p rows,
    In p planned /\ cache !! seriesId p = Some rows /\ In d (map date rows).

(** [cell] is what a series shows at the date [d], given what the cache
    stores under its id: the value of the last stored row of that date, and
    the missing marker when nothing is stored or no stored row has that
    date. *)
Definition CellOf (stored : option (list Observation)) (d : string)
    (cell : option float) : Prop :=
  match stored with
  | None => cell = None
  | Some rows =>
      (~ In d (map date rows) /\ cell = None)
      \/ exists before r after,
           rows = (before ++ r :: after)%list
           /\ date r = d
           /\ ~ In d (map date after)
           /\ cell = Some (value r)
  end.

(** ** The loops of the date set *)

(** The inner loop: the dates of one series are added to the set. *)
Definition addRows (dateSet : list string) (rows : list Observation) : list string :=
  fold_left (fun dateSet r => setAdd dateSet (date r)) rows dateSet.

(** The outer loop, from any set. *)
Definition addSeries (cache : gmap string (list Observation)) (dateSet : list string)
    (planned : list Planned) : list string :=
  fold_left (fun dateSet p => addRows dateSet (rowsOf cache (seriesId p))) planned dateSet.

(** How many times the observations of [id] are requested in a log. *)
Definition fetchCount (id : string) (log : list Request) : nat :=
  length (List.filter (fun r => match r with
                                | Observations i => String.eqb i id
                                | Search _ => false
                                end) log).

(** ** Sample sessions *)

Module Sample.

Definition raw : list RawObservation :=
  [ {| raw_date := "2024-01-01"; raw_value := "100" |};
    {| raw_date := "2024-02-01"; raw_value := "." |} ].

(** A session on GDP with Miami and Tampa selected and nothing cached. *)
Definition gdpState : State :=
  {| indicatorKey := GDP;
     selectedMsas := ["33100"; "45300"];
     seriesCache := ∅;
     seriesIdMap := ∅;
     loading := false;
     error := "" |}.

(** A provider that answers every observations request with [raw], except
    the one for Miami's GDP series, which fails with status 500. *)
Definition failsForMiami : Provider :=
  {| search := fun _ => HttpOk (Some []);
     observations := fun id =>
       if String.eqb id "RGMP33100" then HttpError 500 else HttpOk (Some raw) |}.

(** A provider that finds no series and answers every observations request
    with [raw]. *)
Definition findsNothing : Provider :=
  {| search := fun _ => HttpOk (Some []);
     observations := fun _ => HttpOk (Some raw) |}.

(** A response in which one date comes twice. *)
Definition repeated : list RawObservation :=
  [ {| raw_date := "2024-01-01"; raw_value := "1" |};
    {| raw_date := "2024-01-01"; raw_value := "2" |} ].


(** A session on Housing Inventory with Miami and Tampa selected, with any
    cache and no discovered id. *)
Definition housingState (cache : gmap string (list Observation)) : State :=
  {| indicatorKey := HOUSING_HPI;
     selectedMsas := ["33100"; "45300"];
     seriesCache := cache;
     seriesIdMap := ∅;
     loading := false;
     error := "" |}.

(** A session on the employment rate with Atlanta selected and nothing
    cached or discovered. *)
Definition atlantaState : State :=
  {| indicatorKey := EMP_RATE;
     selectedMsas := ["12060"];
     seriesCache := ∅;
     seriesIdMap := ∅;
     loading := false;
     error := "" |}.

(** A cache with Miami's GDP series, and the same with Tampa's added. *)
Definition miamiCached : gmap string (list Observation) :=
  <["RGMP33100" := [ {| date := "2022-01-01"; value := 1%float |};
                     {| date := "2023-01-01"; value := 2%float |} ]]> ∅.

(** A session on GDP with Miami and Tampa selected and Miami's series
    cached. *)
Definition gdpMiamiCached : State :=
  {| indicatorKey := GDP;
     selectedMsas := ["33100"; "45300"];
     seriesCache := miamiCached;
     seriesIdMap := ∅;
     loading := false;
     error := "" |}.

Definition tampaAdded : gmap string (list Observation) :=
  <["RGMP45300" := [ {| date := "2021-01-01"; value := 3%float |};
                     {| date := "2023-01-01"; value := 4%float |} ]]> miamiCached.

(** Candidates of a search, and the context of a pick for Atlanta. *)
Definition candidates : list SeriesItem :=
  [ {| item_id := "RGMP12060"; title := "Total GDP" |};
    {| item_id := "ACTLISCOU33100";
       title := "Housing Inventory: Active Listing Count in Miami" |};
    {| item_id := "actliscou12060";
       title := "Housing Inventory: active listing count in Atlanta" |} ].

Definition atlantaCtx : PickCtx := {| ctx_cbsa := "12060"; ctx_msaName := "Atlanta" |}.

Definition apiKey : option string := Some "key".

End Sample.

(** * The rest of the component

    The pick function of EMP_RATE is above; here are the colours
    ([generateColorFromString] and the pinned colours of the charts), the
    data handed to the three charts ([chartData], [barData],
    [stackedBarData]) and the lists computed by [Filters.jsx]. The numeric
    styling constants of the datasets and the chart options are left
    out. *)

From Stdlib Require DecimalString.

(** ** Colours *)

Record Color := { border : string; background : string }.

Module Hash.

(** The conversion of an integral number to a signed 32-bit integer that
    the shift operator applies to its left operand. *)
Definition toInt32 (z : Z) : Z := ((z + 2 ^ 31) mod 2 ^ 32 - 2 ^ 31)%Z.

(** [hash << 5]. *)
Definition shl5 (hash : Z) : Z := toInt32 (toInt32 hash * 2 ^ 5).

(** One turn of the loop: [hash = key.charCodeAt(i) + ((hash << 5) - hash)].
    The additions are those of numbers, not of 32-bit integers; they are
    exact as long as the hash stays below 2^53. *)
Definition step (hash : Z) (charCode : Z) : Z := (charCode + (shl5 hash - hash))%Z.

(** The hash of a key, given as its UTF-16 code units. *)
Definition hash (key : list Z) : Z := fold_left step key 0%Z.

(** [Math.abs(hash) % 360]. *)
Definition hue (key : list Z) : Z := (Z.abs (hash key) mod 360)%Z.

(** The decimal numeral of a natural number, as a template string prints
    it. *)
Definition show (n : Z) : string :=
  DecimalString.NilZero.string_of_uint (N.to_uint (Z.to_N n)).

End Hash.

Definition generateColorFromString (key : list Z) : Color :=
  let hue := Hash.show (Hash.hue key) in
  {| border := "hsl(" ++ hue ++ ", 70%, 45%)";
     background := "hsla(" ++ hue ++ ", 70%, 45%, 0.2)" |}.

(** ** The data of the charts *)

(** A dataset of the line chart or of the stacked bar chart. *)
Record Dataset := {
  ds_label : string;
  ds_data : list (option float);
  ds_borderColor : string;
  ds_backgroundColor : string
}.

Record ChartData := { labels : list string; datasets : list Dataset }.

(** The one dataset of the comparison bar chart, with its labels. *)
Record BarData := {
  bar_labels : list string;
  bar_label : string;
  bar_data : list (option float);
  bar_backgroundColor : list string;
  bar_borderColor : list string
}.

Section Charts.

(** The UTF-16 code units of a string ([charCodeAt] at each index). *)
Variable codeUnits : string -> list Z.

(** The colours of a region in the line chart. *)
Definition lineColor (cbsa msaName : string) : Color :=
  if String.eqb cbsa "36740"
  then {| border := "#FF00FF"; background := "rgba(255, 0, 255, 0.25)" |}
  else if String.eqb cbsa "33100"
  then {| border := "#FFFF00"; background := "rgba(255, 255, 0, 0.25)" |}
  else if String.eqb cbsa "12060"
  then {| border := "#FFFFFF"; background := "rgba(255,255,255,0.18)" |}
  else if String.eqb cbsa "45300"
  then {| border := "#00FFFF"; background := "rgba(0, 255, 255, 0.25)" |}
  else generateColorFromString (codeUnits msaName).

Definition chartData (cache : gmap string (list Observation)) (planned : list Planned)
    : ChartData :=
  let unified := unifiedDates cache planned in
  {| labels := unified;
     datasets :=
       map (fun p =>
              let rows := rowsOf cache (seriesId p) in
              let c := lineColor (cbsa p) (msaName p) in
              {| ds_label := msaName p;
                 ds_data := map (fun d => dateToVal rows d) unified;
                 ds_borderColor := border c;
                 ds_backgroundColor := background c |})
         planned |}.

(** The colours of a region in the comparison bar chart. *)
Definition barBackground (cbsa msaName : string) : string :=
  if String.eqb cbsa "36740" then "rgba(255, 0, 255, 0.35)"
  else if String.eqb cbsa "33100" then "rgba(255, 255, 0, 0.35)"
  else if String.eqb cbsa "12060" then "rgba(255, 255, 255, 0.35)"
  else if String.eqb cbsa "45300" then "rgba(0, 255, 255, 0.35)"
  else background (generateColorFromString (codeUnits msaName)).

Definition barBorder (cbsa msaName : string) : string :=
  if String.eqb cbsa "36740" then "#FF00FF"
  else if String.eqb cbsa "33100" then "#FFFF00"
  else if String.eqb cbsa "12060" then "#FFFFFF"
  else if String.eqb cbsa "45300" then "#00FFFF"
  else border (generateColorFromString (codeUnits msaName)).

Definition barData (k : IndicatorKey) (cache : gmap string (list Observation))
    (planned : list Planned) : BarData :=
  {| bar_labels := map msaName planned;
     bar_label := label (INDICATORS k);
     bar_data := map (fun p => value <$> last (rowsOf cache (seriesId p))) planned;
     bar_backgroundColor := map (fun p => barBackground (cbsa p) (msaName p)) planned;
     bar_borderColor := map (fun p => barBorder (cbsa p) (msaName p)) planned |}.

(** The colours of a region in the stacked bar chart. *)
Definition stackedColor (cbsa msaName : string) : Color :=
  if String.eqb cbsa "36740"
  then {| border := "#FF00FF"; background := "rgba(255, 0, 255, 0.35)" |}
  else if String.eqb cbsa "33100"
  then {| border := "#FFFF00"; background := "rgba(255, 255, 0, 0.35)" |}
  else if String.eqb cbsa "12060"
  then {| border := "#FFFFFF"; background := "rgba(255,255,255,0.35)" |}
  else if String.eqb cbsa "45300"
  then {| border := "#00FFFF"; background := "rgba(0, 255, 255, 0.35)" |}
  else generateColorFromString (codeUnits msaName).

Definition stackedBarData (cache : gmap string (list Observation)) (planned : list Planned)
    : ChartData :=
  let dates := sliceLast 12 (unifiedDates cache planned) in
  {| labels := dates;
     datasets :=
       map (fun p =>
              let rows := rowsOf cache (seriesId p) in
              let c := stackedColor (cbsa p) (msaName p) in
              {| ds_label := msaName p;
                 ds_data := map (fun d => dateToVal rows d) dates;
                 ds_borderColor := border c;
                 ds_backgroundColor := background c |})
         planned |}.

End Charts.

(** ** The lists of [Filters.jsx] *)

Record IndicatorOption := { opt_key : string; opt_label : string }.

(** [Object.keys(INDICATORS)], in the order of the literal. *)
Definition indicatorKeys : list IndicatorKey := [EMP_RATE; HOUSING_HPI; GDP].

Definition indicatorOptions : list IndicatorOption :=
  map (fun k => {| opt_key := keyName k; opt_label := label (INDICATORS k) |})
    indicatorKeys.

(** The chips under the indicator select: the labels of the options whose
    key is the current one. *)
Definition indicatorChips (options : list IndicatorOption) (indicatorKey : string)
    : list string :=
  map opt_label (List.filter (fun o => String.eqb (opt_key o) indicatorKey) options).

(** The chips under the region select: the regions of [msas] that are
    selected, in the order of [msas]. *)
Definition regionChips (msas : list Msa) (selectedMsas : list string) : list Msa :=
  List.filter (fun m => existsb (String.eqb (msa_cbsa m)) selectedMsas) msas.

(** The region select: the placeholder option has the empty value and
    toggles nothing. *)
Definition onChangeRegion (v : string) (st : State) : State :=
  if truthy (Some v) then onToggleMsa v st else st.

(** ** The state updates of a run *)

(** The function that a run hands to [setSeriesCache]: a copy of the cache
    that is current when the update is applied, with the results of the
    batch written into it. *)
Definition cacheUpdate (results : list (string * list Observation))
    (prev : gmap string (list Observation)) : gmap string (list Observation) :=
  insertAll prev results.

(** The function that a run hands to [setSeriesIdMap], likewise, with the
    discovered entries. *)
Definition idMapUpdate (entries : list (string * string)) (prev : gmap string string)
    : gmap string string :=
  insertAll prev entries.

(** ** Vocabulary *)

Definition matchesLaumt (s : SeriesItem) : Prop :=
  (exists r, Str.upper (item_id s) = "LAUMT" ++ r) /\
  (exists a b, Str.upper (title s) = a ++ "UNEMPLOYMENT RATE" ++ b).

Definition isLaumt (s : SeriesItem) : bool :=
  Str.testPrefixI "LAUMT" (item_id s) && Str.testI "Unemployment Rate" (title s).

(** An event that the widgets can raise: a region is toggled only by its
    option or its chip, both of which carry a code of [MSAS]. *)
Definition fromWidgets (ev : Event) : bool :=
  match ev with
  | ToggleMsa c => existsb (String.eqb c) (map msa_cbsa MSAS)
  | _ => true
  end.

(** The query of the search for a planned series, if it is searched. *)
Definition queryOf (k : IndicatorKey) (idMap : gmap string string) (p : Planned)
    : list Request :=
  if truthy (idMap !! overrideKey k (cbsa p)) then []
  else match searchText (INDICATORS k) with
       | Some text => [Search (text (msaName p))]
       | None => []
       end.

(** The code units of a string of ASCII characters. *)
Fixpoint asciiUnits (s : string) : list Z :=
  match s with
  | EmptyString => []
  | String c r => Z.of_nat (nat_of_ascii c) :: asciiUnits r
  end.

(** The rows of a multi-region table. *)
Definition tableRows (t : TableData) : list TableRow :=
  match t with
  | Multi _ rows => rows
  | Single _ => []
  end.

Module Demo.

Definition unemployment : list SeriesItem :=
  [ {| item_id := "ATLA013URN"; title := "Unemployment Rate in Atlanta (MSA)" |};
    {| item_id := "LAUMT131206000000003";
       title := "Unemployment Rate in Atlanta-Sandy Springs-Roswell, GA (MSA)" |} ].

(** A provider that finds [unemployment] for every query and answers every
    observations request with the sample response. *)
Definition finds : Provider :=
  {| search := fun _ => HttpOk (Some unemployment);
     observations := fun _ => HttpOk (Some Sample.raw) |}.

(** A provider whose searches are rejected. *)
Definition offline : Provider :=
  {| search := fun _ => Rejected;
     observations := fun _ => HttpOk (Some Sample.raw) |}.

Definition atlantaPlanned : Planned := planOne EMP_RATE ∅ "12060".

(** A session on the employment rate with Atlanta selected and its series
    id discovered. *)
Definition discoveredState : State :=
  {| indicatorKey := EMP_RATE;
     selectedMsas := ["12060"];
     seriesCache := ∅;
     seriesIdMap := <["EMP_RATE|12060" := "LAUMT131206000000003"]> ∅;
     loading := false;
     error := "" |}.

(** A session on Housing Inventory with Miami selected, for which another
    id than the overridden one has been discovered. *)
Definition overriddenState : State :=
  {| indicatorKey := HOUSING_HPI;
     selectedMsas := ["33100"];
     seriesCache := ∅;
     seriesIdMap := <["HOUSING_HPI|33100" := "ACTLISCOUFL"]> ∅;
     loading := false;
     error := "" |}.

(** A session on the employment rate with Atlanta and Miami selected, the
    id of Atlanta discovered and that of Miami not. *)
Definition discoveredPlusMiami : State :=
  {| indicatorKey := EMP_RATE;
     selectedMsas := ["12060"; "33100"];
     seriesCache := ∅;
     seriesIdMap := <["EMP_RATE|12060" := "LAUMT131206000000003"]> ∅;
     loading := false;
     error := "" |}.

(** A provider that finds one series, of Miami, for every query. *)
Definition searchesMiami : Provider :=
  {| search := fun _ =>
       HttpOk (Some [ {| item_id := "LAUMT123310000000003";
                         title := "Unemployment Rate in Miami (MSA)" |} ]);
     observations := fun _ => HttpOk (Some Sample.raw) |}.

Definition miamiRows : list Observation :=
  [ {| date := "2022-01-01"; value := 1%float |};
    {| date := "2023-01-01"; value := 2%float |} ].

Definition miamiPlanned : Planned := planOne GDP ∅ "33100".

End Demo.

(** * Properties *)

(** ** Strings *)

Lemma prefix_iff_app (p s : string) :
  String.prefix p s = true <-> exists r, s = p ++ r.
Proof.
  revert s; induction p as [|c p IH]; intros s; simpl.
  - split; [intros _; exists s; reflexivity | intros _; now destruct s].
  - destruct s as [|d s].
    + split; [discriminate | intros [r Hr]; discriminate].
    + simpl. destruct (ascii_dec c d) as [->|Hne].
      * rewrite IH. split; intros [r Hr]; exists r.
        -- simpl. now rewrite Hr.
        -- simpl in Hr. now injection Hr.
      * split; [discriminate | intros [r Hr]; simpl in Hr; injection Hr; congruence].
Qed.

Lemma includes_iff_app (p s : string) :
  Str.includes p s = true <-> exists a b, s = a ++ p ++ b.
Proof.
  induction s as [|c s IH].
  - change (Str.includes p "") with (String.prefix p "" || false).
    rewrite orb_false_r, prefix_iff_app. split.
    + intros [r Hr]. exists "", r. exact Hr.
    + intros [a [b Hab]]. destruct a; [exists b; exact Hab | discriminate].
  - change (Str.includes p (String c s))
      with (String.prefix p (String c s) || Str.includes p s).
    rewrite orb_true_iff, prefix_iff_app, IH. split.
    + intros [[r Hr] | [a [b Hab]]].
      * exists "", r. exact Hr.
      * exists (String c a), b. simpl. now rewrite Hab.
    + intros [a [b Hab]]. destruct a as [|d a]; simpl in Hab.
      * left. exists b. exact Hab.
      * right. exists a, b. now injection Hab.
Qed.

(** ** The pick function of HOUSING_HPI *)

Lemma isCandidate_iff (s : SeriesItem) : isCandidate s = true <-> matchesFilter s.
Proof.
  unfold isCandidate, matchesFilter, Str.testPrefixI, Str.testI.
  rewrite andb_true_iff, prefix_iff_app, includes_iff_app. reflexivity.
Qed.

Lemma test_iff (cbsa : string) (s : SeriesItem) :
  Str.test cbsa (item_id s) = true <-> idContains cbsa s.
Proof. unfold Str.test, idContains. apply includes_iff_app. Qed.

(** [List.find] returns the first member that passes the test. *)
Lemma find_first {A : Type} (f : A -> bool) (l : list A) (x : A) :
  List.find f l = Some x ->
  exists before after,
    l = (before ++ x :: after)%list /\ f x = true /\ Forall (fun y => f y = false) before.
Proof.
  induction l as [|h t IH]; simpl; [discriminate|].
  destruct (f h) eqn:Hh.
  - intros [= ->]. exists [], t. auto.
  - intros Hx. destruct (IH Hx) as (b & a & -> & Hfx & Hb).
    exists (h :: b), a. auto.
Qed.

Lemma find_none {A : Type} (f : A -> bool) (l : list A) :
  List.find f l = None -> Forall (fun y => f y = false) l.
Proof.
  induction l as [|h t IH]; simpl; [constructor|].
  destruct (f h) eqn:Hh; [discriminate|]. auto.
Qed.

(** The first member of [filter f l] that passes [g] is the first member of
    [l] that passes both. *)
Lemma find_filter {A : Type} (f g : A -> bool) (l : list A) :
  List.find g (List.filter f l) = List.find (fun x => f x && g x) l.
Proof.
  induction l as [|h t IH]; simpl; [reflexivity|].
  destruct (f h); simpl; [destruct (g h); auto | auto].
Qed.

Lemma head_filter {A : Type} (f : A -> bool) (l : list A) :
  head (List.filter f l) = List.find f l.
Proof.
  induction l as [|h t IH]; simpl; [reflexivity|].
  destruct (f h); simpl; auto.
Qed.

Lemma Forall_false_not {A : Type} (f : A -> bool) (P : A -> Prop) (l : list A) :
  (forall x, f x = true <-> P x) ->
  Forall (fun y => f y = false) l -> Forall (fun y => ~ P y) l.
Proof.
  intros Hf Hl. induction Hl as [|y l Hy _ IH]; constructor; [|exact IH].
  intros HP. apply Hf in HP. congruence.
Qed.

(** C10. On a non-empty candidate list the pick function of HOUSING_HPI
    returns the id of a member of the list, chosen by preference: the first
    member that matches the filter pattern and whose id contains the region
    code; failing that the first member that matches the filter pattern;
    failing that the first member of the list. *)
Theorem HOUSING_HPI_pickSeries_preference
    (items : list SeriesItem) (ctx : PickCtx) :
  items <> [] ->
  exists s, HOUSING_HPI_pickSeries items ctx = Some (item_id s)
            /\ In s items
            /\ Preferred (ctx_cbsa ctx) items s.
Proof.
  intros Hne. unfold HOUSING_HPI_pickSeries.
  set (both := fun x => isCandidate x && Str.test (ctx_cbsa ctx) (item_id x)).
  assert (Hboth : forall x, both x = true <->
                            matchesFilter x /\ idContains (ctx_cbsa ctx) x).
  { intros x. unfold both. now rewrite andb_true_iff, isCandidate_iff, test_iff. }
  change (List.filter _ items) with (List.filter isCandidate items).
  rewrite find_filter, head_filter. fold both.
  destruct (List.find both items) as [s|] eqn:Hfind.
  - destruct (find_first _ _ _ Hfind) as (b & a & Hitems & Hs & Hb).
    exists s. split; [reflexivity|]. split.
    + rewrite Hitems. apply in_or_app. right. now left.
    + apply PreferByCbsa. exists b, a. split; [exact Hitems|]. split.
      * now apply Hboth.
      * now apply (Forall_false_not both).
  - pose proof (Forall_false_not both _ _ Hboth (find_none _ _ Hfind)) as Hnone.
    destruct (List.find isCandidate items) as [s|] eqn:Hcand.
    + destruct (find_first _ _ _ Hcand) as (b & a & Hitems & Hs & Hb).
      exists s. split; [reflexivity|]. split.
      * rewrite Hitems. apply in_or_app. right. now left.
      * apply PreferFiltered; [exact Hnone|]. exists b, a.
        split; [exact Hitems|]. split.
        -- now apply isCandidate_iff.
        -- now apply (Forall_false_not isCandidate _ _ isCandidate_iff).
    + destruct items as [|s rest]; [congruence|].
      exists s. split; [reflexivity|]. split; [now left|].
      eapply PreferFirst; [|reflexivity].
      apply (Forall_false_not isCandidate _ _ isCandidate_iff).
      now apply find_none.
Qed.

Lemma HOUSING_HPI_pickSeries_preference_witness :
  exists s,
    HOUSING_HPI_pickSeries Sample.candidates Sample.atlantaCtx = Some (item_id s)
    /\ In s Sample.candidates
    /\ Preferred (ctx_cbsa Sample.atlantaCtx) Sample.candidates s.
Proof.
  apply (HOUSING_HPI_pickSeries_preference Sample.candidates Sample.atlantaCtx).
  discriminate.
Defined.

Example HOUSING_HPI_pickSeries_Atlanta :
  HOUSING_HPI_pickSeries Sample.candidates Sample.atlantaCtx = Some "actliscou12060"
  /\ HOUSING_HPI_pickSeries Sample.candidates {| ctx_cbsa := "36740"; ctx_msaName := "Orlando" |}
     = Some "ACTLISCOU33100"
  /\ HOUSING_HPI_pickSeries [ {| item_id := "RGMP12060"; title := "Total GDP" |} ]
       Sample.atlantaCtx
     = Some "RGMP12060"
  /\ HOUSING_HPI_pickSeries [] Sample.atlantaCtx = None.
Proof. vm_compute. repeat split. Qed.

(** ** Sorting with a comparator *)

Section SortTheory.

Context {A : Type} (cmp : A -> A -> Z).

Local Abbreviation leq := (cmpLe cmp).

Lemma insertBy_perm (x : A) (l : list A) : Permutation (x :: l) (insertBy cmp x l).
Proof.
  induction l as [|h t IH]; simpl; [reflexivity|].
  destruct (cmp x h <=? 0)%Z; [reflexivity|].
  rewrite perm_swap. now apply perm_skip.
Qed.

Lemma sortBy_perm (l : list A) : Permutation l (sortBy cmp l).
Proof.
  induction l as [|h t IH]; simpl; [reflexivity|].
  rewrite <- insertBy_perm. now apply perm_skip.
Qed.

Lemma sortBy_In (l : list A) (x : A) : In x (sortBy cmp l) <-> In x l.
Proof.
  split; apply Permutation_in; [symmetry|]; apply sortBy_perm.
Qed.

Lemma sortBy_length (l : list A) : length (sortBy cmp l) = length l.
Proof. symmetry. apply Permutation_length, sortBy_perm. Qed.

(** A sorted array is left as it is. *)
Lemma sortBy_sorted_id (l : list A) : StronglySorted leq l -> sortBy cmp l = l.
Proof.
  induction 1 as [|h t Ht IH Hh]; simpl; [reflexivity|].
  rewrite IH. destruct t as [|h' t']; [reflexivity|]. simpl.
  inversion Hh as [|? ? Hle _]; subst. unfold cmpLe in Hle.
  destruct (Z.leb_spec (cmp h h') 0); [reflexivity | lia].
Qed.

Hypothesis cmp_total : forall a b, leq a b \/ leq b a.
Hypothesis cmp_trans : forall a b c, leq a b -> leq b c -> leq a c.

Lemma insertBy_sorted (x : A) (l : list A) :
  StronglySorted leq l -> StronglySorted leq (insertBy cmp x l).
Proof.
  induction 1 as [|h t Ht IH Hh]; simpl.
  - constructor; constructor.
  - destruct (Z.leb_spec (cmp x h) 0) as [Hle|Hgt].
    + constructor; [now constructor|]. constructor; [exact Hle|].
      eapply List.Forall_impl; [|exact Hh]. intros a Ha. now apply (cmp_trans x h a).
    + constructor; [exact IH|].
      rewrite List.Forall_forall. intros a Ha.
      apply (Permutation_in _ (Permutation_sym (insertBy_perm x t))) in Ha.
      destruct Ha as [<-|Ha].
      * destruct (cmp_total h x) as [H|H]; [exact H | unfold cmpLe in H; lia].
      * rewrite List.Forall_forall in Hh. now apply Hh.
Qed.

Lemma sortBy_sorted (l : list A) : StronglySorted leq (sortBy cmp l).
Proof.
  induction l as [|h t IH]; simpl; [constructor | now apply insertBy_sorted].
Qed.

End SortTheory.

(** ** The order of dates *)

Lemma compare_as_OT (a b : string) : String.compare a b = String_as_OT.compare a b.
Proof.
  revert b; induction a as [|c a IH]; intros [|d b]; simpl; try reflexivity.
Qed.

Lemma compare_lt_trans (a b c : string) :
  String.compare a b = Lt -> String.compare b c = Lt -> String.compare a c = Lt.
Proof.
  rewrite !compare_as_OT. intros Hab Hbc.
  exact (StrictOrder_Transitive (R := String_as_OT.lt) a b c Hab Hbc).
Qed.

Lemma localeCompare_eq (a b : string) : Str.localeCompare a b = 0%Z <-> a = b.
Proof.
  unfold Str.localeCompare. split.
  - destruct (String.compare a b) eqn:H; try discriminate.
    intros _. now apply String.compare_eq_iff.
  - intros ->. pose proof (String.compare_antisym b b) as E.
    destruct (String.compare b b); [reflexivity | discriminate | discriminate].
Qed.

Lemma dateLe_cases (a b : string) : dateLe a b <-> dateLt a b \/ a = b.
Proof.
  unfold dateLe, dateLt. rewrite <- localeCompare_eq. lia.
Qed.

Lemma dateLt_compare (a b : string) : dateLt a b <-> String.compare a b = Lt.
Proof.
  unfold dateLt, Str.localeCompare.
  destruct (String.compare a b); split; (lia || congruence).
Qed.

Lemma dateLt_trans (a b c : string) : dateLt a b -> dateLt b c -> dateLt a c.
Proof. rewrite !dateLt_compare. apply compare_lt_trans. Qed.

Lemma dateLt_irrefl (a : string) : ~ dateLt a a.
Proof.
  unfold dateLt. intros H.
  assert (Str.localeCompare a a = 0%Z) by now apply localeCompare_eq. lia.
Qed.

Lemma dateLe_total (a b : string) : dateLe a b \/ dateLe b a.
Proof.
  unfold dateLe, Str.localeCompare. rewrite (String.compare_antisym b a).
  destruct (String.compare a b); simpl; lia.
Qed.

Lemma dateLe_trans (a b c : string) : dateLe a b -> dateLe b c -> dateLe a c.
Proof.
  rewrite !dateLe_cases. intros [Hab| ->] [Hbc| ->]; auto.
  left. now apply (dateLt_trans a b c).
Qed.

(** A duplicate-free array of dates in ascending order is in strictly
    ascending order. *)
Lemma sorted_NoDup_strict (l : list string) :
  StronglySorted dateLe l -> List.NoDup l -> StronglySorted dateLt l.
Proof.
  induction 1 as [|h t Ht IH Hh]; intros Hnd; [constructor|].
  apply List.NoDup_cons_iff in Hnd as [Hin Hnd].
  constructor; [auto|].
  rewrite List.Forall_forall in *. intros x Hx.
  destruct (proj1 (dateLe_cases h x) (Hh x Hx)) as [H| ->]; [exact H | contradiction].
Qed.

Lemma strict_NoDup (l : list string) : StronglySorted dateLt l -> List.NoDup l.
Proof.
  induction 1 as [|h t Ht IH Hh]; constructor; [|exact IH].
  intros Hin. rewrite List.Forall_forall in Hh.
  exact (dateLt_irrefl h (Hh h Hin)).
Qed.

(** ** The effect, case by case *)

Section EffectFacts.

Variable Number : string -> float.

Lemma promiseAll_fetch_requests (indicator : Indicator) (prov : Provider) (l : list Planned) :
  fst (promiseAll (fetchOne Number indicator prov) l)
  = map (fun p => Observations (seriesId p)) l.
Proof.
  unfold promiseAll. simpl. induction l as [|p l IH]; simpl; [reflexivity|].
  now rewrite IH.
Qed.

(** [fetchMissing], step by step. *)
Lemma fetchMissing_eq (prov : Provider) (st : State) :
  fetchMissing Number prov st
  = match discoveriesOf prov st with
    | None => (settled st (seriesIdMap st) (seriesCache st), searchesOf prov st)
    | Some ds =>
        if isEmpty (missingSeries (seriesCache st) (plannedSeries st))
        then (settled st (discoveredMap st ds) (seriesCache st), searchesOf prov st)
        else
          match resultsOf Number prov st with
          | None =>
              (settled st (discoveredMap st ds) (seriesCache st),
               (searchesOf prov st ++ fetchesOf st)%list)
          | Some rs =>
              (settled st (discoveredMap st ds) (insertAll (seriesCache st) rs),
               (searchesOf prov st ++ fetchesOf st)%list)
          end
    end.
Proof.
  unfold fetchMissing, discoveriesOf, searchesOf, resultsOf, fetchesOf, discoveredMap.
  rewrite <- promiseAll_fetch_requests with (indicator := INDICATORS (indicatorKey st))
                                            (prov := prov).
  unfold promiseAll. cbn [fst snd].
  destruct (needsDiscovery (INDICATORS (indicatorKey st))).
  - destruct (allResolved (map _ (plannedSeries st))); [|reflexivity].
    destruct (isEmpty _); [reflexivity|].
    destruct (allResolved _); reflexivity.
  - destruct (isEmpty _); [reflexivity|].
    destruct (allResolved _); reflexivity.
Qed.

(** How a run of [fetchMissing] ends: discovery throws; or nothing is
    missing or a fetch throws, and the cache is left alone; or every fetch
    returns and the results are written into the cache. *)
Lemma fetchMissing_cases (prov : Provider) (st : State) :
  fetchMissing Number prov st
    = (settled st (seriesIdMap st) (seriesCache st), searchesOf prov st)
  \/ (exists idMap,
        (missingSeries (seriesCache st) (plannedSeries st) = [] \/ resultsOf Number prov st = None) /\
        fetchMissing Number prov st
          = (settled st idMap (seriesCache st), (searchesOf prov st ++ fetchesOf st)%list))
  \/ (exists idMap rs,
        resultsOf Number prov st = Some rs /\
        fetchMissing Number prov st
          = (settled st idMap (insertAll (seriesCache st) rs),
             (searchesOf prov st ++ fetchesOf st)%list)).
Proof.
  rewrite fetchMissing_eq.
  destruct (discoveriesOf prov st) as [ds|]; [|now left].
  right. unfold fetchesOf.
  destruct (missingSeries (seriesCache st) (plannedSeries st)) as [|m ms] eqn:Hm.
  - left. exists (discoveredMap st ds). simpl. rewrite app_nil_r. auto.
  - cbn [isEmpty]. destruct (resultsOf Number prov st) as [rs|].
    + right. exists (discoveredMap st ds), rs. auto.
    + left. exists (discoveredMap st ds). auto.
Qed.

Lemma allResolved_None {B : Type} (rs : list (option B)) :
  In None rs -> allResolved rs = None.
Proof.
  induction rs as [|r rs IH]; simpl; [contradiction|].
  intros [->|Hin]; [reflexivity|].
  rewrite (IH Hin). now destruct r.
Qed.

Lemma allResolved_Some {B : Type} (rs : list (option B)) (bs : list B) :
  allResolved rs = Some bs -> rs = map Some bs.
Proof.
  revert bs; induction rs as [|r rs IH]; simpl; intros bs.
  - now intros [= <-].
  - destruct r as [b|]; [|discriminate].
    destruct (allResolved rs) as [bs'|]; [|discriminate].
    intros [= <-]. simpl. now rewrite (IH bs').
Qed.

Lemma missingSeries_In (cache : gmap string (list Observation)) (planned : list Planned)
    (p : Planned) :
  In p (missingSeries cache planned) <-> In p planned /\ cache !! seriesId p = None.
Proof.
  unfold missingSeries. rewrite List.filter_In. unfold notCached.
  destruct (cache !! seriesId p); split; intros [? ?]; split; auto; discriminate.
Qed.

(** C2 (amended). When the observations request of one missing series
    comes back with a non-success status, the whole batch is given up:
    the cache is left exactly as it was, so no series of the batch is
    written, and the loading flag is cleared. *)
Theorem failed_fetch_abandons_batch (prov : Provider) (st : State) (p : Planned)
    (status : nat) :
  In p (plannedSeries st) ->
  seriesCache st !! seriesId p = None ->
  observations prov (seriesId p) = HttpError status ->
  seriesCache (fst (fetchMissing Number prov st)) = seriesCache st
  /\ loading (fst (fetchMissing Number prov st)) = false.
Proof.
  intros Hin Hmiss Hfail.
  assert (Hres : resultsOf Number prov st = None).
  { apply allResolved_None. rewrite List.in_map_iff. exists p. split.
    - unfold fetchOne. simpl. now rewrite Hfail.
    - now apply missingSeries_In. }
  destruct (fetchMissing_cases prov st) as [-> | [(idMap & _ & ->) | (idMap & rs & Hrs & _)]];
    [now split | now split | congruence].
Qed.

End EffectFacts.

(** Replaces the outcome of [fetchMissing] by each of its three forms. *)
Ltac fetchMissing_outcomes Number prov st :=
  destruct (fetchMissing_cases Number prov st)
    as [-> | [(?idMap & _ & ->) | (?idMap & ?rs & ?Hrs & ->)]].

Lemma failed_fetch_abandons_batch_witness :
  seriesCache (fst (fetchMissing Decimal.Number Sample.failsForMiami Sample.gdpState))
    = seriesCache Sample.gdpState
  /\ loading (fst (fetchMissing Decimal.Number Sample.failsForMiami Sample.gdpState)) = false.
Proof.
  apply (failed_fetch_abandons_batch Decimal.Number Sample.failsForMiami Sample.gdpState
           {| cbsa := "33100";
              msaName := "Miami–Fort Lauderdale–West Palm Beach, FL";
              seriesId := "RGMP33100" |} 500).
  - vm_compute. left. reflexivity.
  - reflexivity.
  - reflexivity.
Defined.

(** C2, as stated, fails: Miami's request fails and Tampa's succeeds, both
    are issued, and Tampa's series is not in the cache afterwards; the error
    state is the empty string. *)
Lemma partial_failure_not_tolerated :
  let out := effect Decimal.Number Sample.apiKey Sample.failsForMiami Sample.gdpState in
  observations Sample.failsForMiami "RGMP33100" = HttpError 500
  /\ observations Sample.failsForMiami "RGMP45300" = HttpOk (Some Sample.raw)
  /\ snd out = [Observations "RGMP33100"; Observations "RGMP45300"]
  /\ seriesCache (fst out) !! "RGMP45300" = None
  /\ error (fst out) = "".
Proof. vm_compute. repeat split. Qed.

(** ** Cleaning *)

Section Cleaning.

Variable Number : string -> float.

Lemma byDate_total (a b : Observation) : cmpLe byDate a b \/ cmpLe byDate b a.
Proof. apply dateLe_total. Qed.

Lemma byDate_trans (a b c : Observation) :
  cmpLe byDate a b -> cmpLe byDate b c -> cmpLe byDate a c.
Proof. apply dateLe_trans. Qed.

Lemma cleanObservations_ascending (indicator : Indicator)
    (json : option (list RawObservation)) :
  ascending (cleanObservations Number indicator json).
Proof.
  unfold ascending, cleanObservations.
  apply (sortBy_sorted byDate byDate_total byDate_trans).
Qed.

Lemma cleanObservations_perm (indicator : Indicator) (json : option (list RawObservation)) :
  Permutation
    (map (cleanRecord Number indicator)
       (List.filter (fun d => negb (String.eqb (raw_value d) ".")) (default [] json)))
    (cleanObservations Number indicator json).
Proof. unfold cleanObservations. apply sortBy_perm. Qed.

Lemma filter_not_sentinel (raws : list RawObservation) :
  Forall (fun d => raw_value d <> ".")
    (List.filter (fun d => negb (String.eqb (raw_value d) ".")) raws).
Proof.
  rewrite List.Forall_forall. intros d Hd. apply List.filter_In in Hd as [_ Hd].
  intros Heq. rewrite Heq in Hd. discriminate.
Qed.


End Cleaning.

(** ** Sessions *)

Lemma insertAll_lookup {V : Type} (entries : list (string * V)) (m : gmap string V)
    (k : string) (v : V) :
  insertAll m entries !! k = Some v -> m !! k = Some v \/ In (k, v) entries.
Proof.
  revert m; induction entries as [|[k' v'] es IH]; intros m; simpl; [auto|].
  intros H. apply IH in H as [H|H]; [|auto].
  apply lookup_insert_Some in H as [[-> ->]|[_ H]]; auto.
Qed.

Lemma insertAll_is_Some {V : Type} (entries : list (string * V)) (m : gmap string V)
    (k : string) :
  is_Some (m !! k) -> is_Some (insertAll m entries !! k).
Proof.
  revert m; induction entries as [|[k' v'] es IH]; intros m; simpl; [auto|].
  intros H. apply IH. rewrite lookup_insert_is_Some.
  destruct (decide (k' = k)); auto.
Qed.

Section SessionFacts.

Variable Number : string -> float.
Variable apiKey : option string.

Lemma resultsOf_cleaned (prov : Provider) (st : State)
    (rs : list (string * list Observation)) (id : string) (rows : list Observation) :
  resultsOf Number prov st = Some rs -> In (id, rows) rs ->
  exists json, rows = cleanObservations Number (INDICATORS (indicatorKey st)) json.
Proof.
  intros Hrs Hin. apply allResolved_Some in Hrs.
  assert (Hs : In (Some (id, rows)) (map Some rs)) by now apply List.in_map.
  rewrite <- Hrs in Hs. apply List.in_map_iff in Hs as (p & Hp & _).
  unfold fetchOne in Hp. simpl in Hp.
  destruct (observations prov (seriesId p)) as [| |json]; try discriminate.
  injection Hp as _ <-. now exists json.
Qed.

Lemma fetchMissing_cleaned (prov : Provider) (st : State) :
  cleanedCache Number (seriesCache st) ->
  cleanedCache Number (seriesCache (fst (fetchMissing Number prov st))).
Proof.
  intros Hinv.
  fetchMissing_outcomes Number prov st; simpl; try exact Hinv.
  intros id rows Hl. apply insertAll_lookup in Hl as [Hl|Hl].
  - now apply (Hinv id).
  - destruct (resultsOf_cleaned prov st rs id rows Hrs Hl) as [json ->]. eauto.
Qed.

Lemma step_cleaned (ev : Event) (st : State) :
  cleanedCache Number (seriesCache st) ->
  cleanedCache Number (seriesCache (fst (step Number apiKey ev st))).
Proof.
  intros Hinv. destruct ev as [k|c| |prov]; simpl; try exact Hinv.
  - intros id rows Hl. rewrite lookup_empty in Hl. discriminate.
  - unfold effect. destruct (truthy apiKey); [now apply fetchMissing_cleaned | exact Hinv].
Qed.

Lemma run_cleaned (evs : list Event) (st : State) :
  cleanedCache Number (seriesCache st) ->
  cleanedCache Number (seriesCache (fst (run Number apiKey evs st))).
Proof.
  revert st; induction evs as [|ev evs IH]; intros st Hinv; simpl; [exact Hinv|].
  pose proof (step_cleaned ev st Hinv) as H1.
  destruct (step Number apiKey ev st) as [st1 r1]. simpl in H1.
  specialize (IH st1 H1).
  destruct (run Number apiKey evs st1) as [st2 r2]. exact IH.
Qed.


End SessionFacts.



(** C4 (amended). The cleaning keeps exactly the records whose value is
    not the marker ".", turns each into an observation by [Number] and the
    indicator's [transformValue] when it has one, and puts them in
    ascending order of date. On the sample response the second record is
    dropped: under GDP and HOUSING_HPI, which have no transform, the one
    observation left has the value of "100", that is 100; under EMP_RATE
    it has 100 minus that value. *)
Theorem cleaning_drops_transforms_sorts (Number : string -> float)
    (indicator : Indicator) (json : option (list RawObservation)) :
  let kept := List.filter (fun d => negb (String.eqb (raw_value d) ".")) (default [] json) in
  Forall (fun d => raw_value d <> ".") kept
  /\ Permutation (map (cleanRecord Number indicator) kept)
       (cleanObservations Number indicator json)
  /\ ascending (cleanObservations Number indicator json)
  /\ cleanObservations Number (INDICATORS GDP) (Some Sample.raw)
     = [ {| date := "2024-01-01"; value := Number "100" |} ]
  /\ cleanObservations Number (INDICATORS HOUSING_HPI) (Some Sample.raw)
     = [ {| date := "2024-01-01"; value := Number "100" |} ]
  /\ cleanObservations Number (INDICATORS EMP_RATE) (Some Sample.raw)
     = [ {| date := "2024-01-01"; value := PrimFloat.sub 100%float (Number "100") |} ]
  /\ cleanObservations Decimal.Number (INDICATORS GDP) (Some Sample.raw)
     = [ {| date := "2024-01-01"; value := 100%float |} ]
  /\ cleanObservations Decimal.Number (INDICATORS HOUSING_HPI) (Some Sample.raw)
     = [ {| date := "2024-01-01"; value := 100%float |} ].
Proof.
  intros kept. split; [apply filter_not_sentinel|].
  split; [apply cleanObservations_perm|].
  split; [apply cleanObservations_ascending|].
  repeat split; reflexivity.
Qed.

(** C4, as stated, fails under EMP_RATE, the indicator of a fresh session:
    the sample response is cleaned to the value 0, not 100. *)
Lemma cleaning_under_EMP_RATE :
  cleanObservations Decimal.Number (INDICATORS EMP_RATE) (Some Sample.raw)
  = [ {| date := "2024-01-01"; value := 0%float |} ]
  /\ cleanObservations Decimal.Number (INDICATORS EMP_RATE) (Some Sample.raw)
     <> [ {| date := "2024-01-01"; value := 100%float |} ].
Proof.
  split; [vm_compute; reflexivity|].
  intros H.
  apply (f_equal (fun rows => match rows with
                              | [o] => PrimFloat.eqb (value o) 100%float
                              | _ => false
                              end)) in H.
  vm_compute in H. discriminate.
Qed.

(** ** Which series a batch fetches *)

Section FetchOnce.

Variable Number : string -> float.
Variable apiKey : option string.

Lemma discoverOne_only_searches (k : IndicatorKey) (idMap : gmap string string)
    (prov : Provider) (p : Planned) (id : string) :
  ~ In (Observations id) (fst (discoverOne k idMap prov p)).
Proof.
  unfold discoverOne. destruct (truthy _); [simpl; tauto|].
  destruct (searchText _); simpl; [|tauto].
  intros [H|[]]. discriminate.
Qed.

Lemma searchesOf_only_searches (prov : Provider) (st : State) (id : string) :
  ~ In (Observations id) (searchesOf prov st).
Proof.
  unfold searchesOf. destruct (needsDiscovery _); [|simpl; tauto].
  intros H. apply List.in_concat in H as (l & Hl & Hin).
  apply List.in_map_iff in Hl as (p & <- & _).
  exact (discoverOne_only_searches _ _ _ _ _ Hin).
Qed.

(** A run of the effect asks for the observations of planned series that
    are not in the cache, and of no others. *)
Lemma effect_fetches_missing (prov : Provider) (st : State) (id : string) :
  In (Observations id) (snd (effect Number apiKey prov st)) ->
  seriesCache st !! id = None
  /\ exists p, In p (plannedSeries st) /\ seriesId p = id.
Proof.
  unfold effect. destruct (truthy apiKey); [|simpl; tauto].
  intros H.
  assert (Hf : In (Observations id) (fetchesOf st)).
  { destruct (fetchMissing_cases Number prov st)
      as [E | [(idMap & _ & E) | (idMap & rs & _ & E)]]; rewrite E in H; simpl in H.
    - now apply searchesOf_only_searches in H.
    - apply in_app_or in H as [H|H]; [now apply searchesOf_only_searches in H | exact H].
    - apply in_app_or in H as [H|H]; [now apply searchesOf_only_searches in H | exact H]. }
  unfold fetchesOf in Hf. apply List.in_map_iff in Hf as (p & [= <-] & Hp).
  apply missingSeries_In in Hp as [Hp Hc]. eauto.
Qed.

(** C8 (amended). Every observations request of a run of the effect is for
    a planned series that is missing from the cache of the render that
    started the run: a series id present in that cache is not requested by
    the run, and no series is requested that is not planned. *)
Theorem batch_requests_only_missing (prov : Provider) (st : State) (id : string) :
  In (Observations id) (snd (effect Number apiKey prov st)) ->
  seriesCache st !! id = None
  /\ notCached (seriesCache st) id = true
  /\ exists p,
       In p (plannedSeries st) /\ seriesId p = id
       /\ In p (missingSeries (seriesCache st) (plannedSeries st)).
Proof.
  intros Hreq. apply effect_fetches_missing in Hreq as (Hnone & p & Hp & Hid).
  split; [exact Hnone|]. split.
  - unfold notCached. now rewrite Hnone.
  - exists p. split; [exact Hp|]. split; [exact Hid|].
    apply missingSeries_In. split; [exact Hp | now rewrite Hid].
Qed.

End FetchOnce.

Lemma batch_requests_only_missing_witness :
  seriesCache Sample.gdpMiamiCached !! "RGMP45300" = None
  /\ notCached (seriesCache Sample.gdpMiamiCached) "RGMP45300" = true
  /\ exists p,
       In p (plannedSeries Sample.gdpMiamiCached)
       /\ seriesId p = "RGMP45300"
       /\ In p (missingSeries (seriesCache Sample.gdpMiamiCached)
                  (plannedSeries Sample.gdpMiamiCached)).
Proof.
  apply (batch_requests_only_missing Decimal.Number Sample.apiKey Sample.findsNothing
           Sample.gdpMiamiCached "RGMP45300").
  vm_compute. left. reflexivity.
Defined.

(** Miami's series is in the cache and Tampa's is not: the run asks for
    Tampa's only. *)
Example batch_with_Miami_cached :
  snd (effect Decimal.Number Sample.apiKey Sample.findsNothing Sample.gdpMiamiCached)
  = [Observations "RGMP45300"].
Proof. vm_compute. reflexivity. Qed.

(** C8, as stated, fails: the series of Miami's GDP is fetched and cached,
    the indicator is switched away and back, and the same series is fetched
    a second time in the same session. *)
Lemma series_fetched_twice_in_a_session :
  is_Some
    (seriesCache
       (fst (run Decimal.Number Sample.apiKey
               [SelectIndicator GDP; RunEffect Sample.findsNothing] initialState))
       !! "RGMP33100")
  /\ fetchCount "RGMP33100"
       (snd (run Decimal.Number Sample.apiKey
               [ SelectIndicator GDP; RunEffect Sample.findsNothing;
                 SelectIndicator HOUSING_HPI; RunEffect Sample.findsNothing;
                 SelectIndicator GDP; RunEffect Sample.findsNothing ] initialState))
     = 2%nat.
Proof.
  split; [vm_compute; eauto | vm_compute; reflexivity].
Qed.

(** ** The planner and the static overrides *)

Lemma static_override_truthy (key v : string) :
  SERIES_OVERRIDES !! key = Some v -> v <> "".
Proof.
  unfold SERIES_OVERRIDES. intros H.
  repeat (apply lookup_insert_Some in H as [[_ <-]|[_ H]]; [discriminate|]).
  rewrite lookup_empty in H. discriminate.
Qed.

Lemma orString_truthy (v b : string) : v <> "" -> orString (Some v) b = v.
Proof.
  intros Hv. unfold orString. destruct (String.eqb_spec v ""); [contradiction | reflexivity].
Qed.

(** A static override decides the planned id, whatever was discovered. *)
Lemma static_override_wins (k : IndicatorKey) (idMap : gmap string string)
    (cbsa v : string) :
  SERIES_OVERRIDES !! overrideKey k cbsa = Some v ->
  seriesId (planOne k idMap cbsa) = v.
Proof.
  intros H. unfold planOne. cbn [seriesId]. rewrite H.
  apply orString_truthy. now apply (static_override_truthy (overrideKey k cbsa)).
Qed.

Lemma fetchMissing_selection (Number : string -> float) (prov : Provider) (st : State) :
  indicatorKey (fst (fetchMissing Number prov st)) = indicatorKey st
  /\ selectedMsas (fst (fetchMissing Number prov st)) = selectedMsas st.
Proof.
  fetchMissing_outcomes Number prov st; now split.
Qed.

Lemma fetchMissing_starts_with_searches (Number : string -> float) (prov : Provider)
    (st : State) :
  exists rest, snd (fetchMissing Number prov st) = (searchesOf prov st ++ rest)%list.
Proof.
  fetchMissing_outcomes Number prov st; simpl.
  - exists []. now rewrite app_nil_r.
  - now exists (fetchesOf st).
  - now exists (fetchesOf st).
Qed.

(** C1, on the code. With Housing Inventory selected for Miami and Tampa
    and no discovered id, the planned ids are the overridden ones before
    and after the effect, whatever the provider answers; yet the effect
    opens with a search request for each of the two regions. *)
Theorem static_override_still_searched (Number : string -> float) (prov : Provider)
    (cache : gmap string (list Observation)) :
  let st := Sample.housingState cache in
  map seriesId (plannedSeries st) = ["ACTLISCOU33100"; "ACTLISCOU45300"]
  /\ map seriesId (plannedSeries (fst (effect Number Sample.apiKey prov st)))
     = ["ACTLISCOU33100"; "ACTLISCOU45300"]
  /\ exists rest,
       snd (effect Number Sample.apiKey prov st)
       = Search "Housing Inventory: Active Listing Count in Miami–Fort Lauderdale–West Palm Beach, FL"
         :: Search "Housing Inventory: Active Listing Count in Tampa–St. Petersburg–Clearwater, FL"
         :: rest.
Proof.
  intros st. split; [reflexivity|]. split.
  - change (effect Number Sample.apiKey prov st) with (fetchMissing Number prov st).
    unfold plannedSeries.
    destruct (fetchMissing_selection Number prov st) as [-> ->].
    cbn [st Sample.housingState indicatorKey selectedMsas plannedSeriesOf map].
    rewrite (static_override_wins HOUSING_HPI _ "33100" "ACTLISCOU33100" eq_refl).
    rewrite (static_override_wins HOUSING_HPI _ "45300" "ACTLISCOU45300" eq_refl).
    reflexivity.
  - change (effect Number Sample.apiKey prov st) with (fetchMissing Number prov st).
    destruct (fetchMissing_starts_with_searches Number prov st) as [rest ->].
    exists rest. reflexivity.
Qed.

(** C7. Selecting an indicator empties the cache and the map of discovered
    ids. The series planned next are those of the empty map: for every
    region the static override if there is one, else the id of the naming
    pattern, whatever had been discovered before; and the discovery step
    searches again for every planned region instead of taking an id from
    the map. *)
Theorem onSelectIndicator_forgets (k : IndicatorKey) (st : State) :
  let st' := onSelectIndicator k st in
  seriesCache st' = ∅
  /\ seriesIdMap st' = ∅
  /\ plannedSeries st' = plannedSeriesOf k ∅ (selectedMsas st)
  /\ (forall cbsa,
        seriesId (planOne (indicatorKey st') (seriesIdMap st') cbsa)
        = orString (SERIES_OVERRIDES !! overrideKey k cbsa)
            (seriesIdForCbsa (INDICATORS k) cbsa))
  /\ (forall prov p,
        fst (discoverOne (indicatorKey st') (seriesIdMap st') prov p)
        = match searchText (INDICATORS k) with
          | Some text => [Search (text (msaName p))]
          | None => []
          end).
Proof.
  intros st'. split; [reflexivity|]. split; [reflexivity|]. split; [reflexivity|].
  split.
  - intros cbsa. unfold planOne. cbn [seriesId st' onSelectIndicator indicatorKey seriesIdMap].
    now rewrite lookup_empty.
  - intros prov p. unfold discoverOne.
    cbn [st' onSelectIndicator indicatorKey seriesIdMap].
    rewrite lookup_empty. cbn [truthy].
    now destruct (searchText (INDICATORS k)).
Qed.

(** ** Discovery that finds nothing *)

Lemma string_app_inv_head (p a b : string) : p ++ a = p ++ b -> a = b.
Proof.
  induction p as [|c p IH]; simpl; [auto|]. intros [= H]. auto.
Qed.

Lemma overrideKey_inj (k : IndicatorKey) (c c' : string) :
  overrideKey k c = overrideKey k c' -> c = c'.
Proof.
  unfold overrideKey. intros H.
  apply string_app_inv_head in H. now apply (string_app_inv_head "|") in H.
Qed.

Lemma nonNull_In {B : Type} (ds : list (option B)) (e : B) :
  In e (nonNull ds) <-> In (Some e) ds.
Proof.
  induction ds as [|[b|] ds IH]; simpl.
  - tauto.
  - rewrite IH. split; intros [H|H]; auto; left; congruence.
  - rewrite IH. split; [auto | intros [H|H]; [discriminate | exact H]].
Qed.

Lemma allResolved_all {X B : Type} (f : X -> option B) (l : list X) :
  (forall x, In x l -> exists b, f x = Some b) ->
  exists bs, allResolved (map f l) = Some bs.
Proof.
  induction l as [|x l IH]; intros H; simpl; [eauto|].
  destruct (H x (or_introl eq_refl)) as [b ->].
  destruct IH as [bs ->]; [intros y Hy; apply H; now right|]. eauto.
Qed.

Lemma discoverOne_key (k : IndicatorKey) (idMap : gmap string string) (prov : Provider)
    (p : Planned) (key v : string) :
  snd (discoverOne k idMap prov p) = Some (Some (key, v)) ->
  key = overrideKey k (cbsa p).
Proof.
  unfold discoverOne. destruct (truthy _); [discriminate|].
  destruct (searchText _); [|discriminate]. cbn [snd].
  destruct (search prov _) as [| |json]; try discriminate.
  destruct (isEmpty _); [discriminate|].
  destruct (match pickSeries (INDICATORS k) with Some _ => _ | None => _ end)
    as [picked|]; [|discriminate].
  destruct (String.eqb picked ""); [discriminate|]. now intros [= <- _].
Qed.

Lemma discoverOne_nothing_found (k : IndicatorKey) (idMap : gmap string string)
    (prov : Provider) (p : Planned) (text : string -> string)
    (json : option (list SeriesItem)) :
  searchText (INDICATORS k) = Some text ->
  search prov (text (msaName p)) = HttpOk json ->
  default [] json = [] ->
  snd (discoverOne k idMap prov p) = Some None.
Proof.
  intros Ht Hs He. unfold discoverOne. destruct (truthy _); [reflexivity|].
  rewrite Ht. cbn [snd]. rewrite Hs, He. reflexivity.
Qed.

Lemma discoverOne_returns (k : IndicatorKey) (idMap : gmap string string)
    (prov : Provider) (p : Planned) (text : string -> string) :
  searchText (INDICATORS k) = Some text ->
  (forall q, search prov q <> Rejected) ->
  exists d, snd (discoverOne k idMap prov p) = Some d.
Proof.
  intros Ht Hr. unfold discoverOne. destruct (truthy _); [eauto|].
  rewrite Ht. cbn [snd]. specialize (Hr (text (msaName p))).
  destruct (search prov (text (msaName p))) as [| |json]; [contradiction | eauto |].
  destruct (isEmpty _); eauto.
Qed.

Section NothingFound.

Variable Number : string -> float.

Lemma planOne_pattern (k : IndicatorKey) (idMap : gmap string string) (c : string) :
  SERIES_OVERRIDES !! overrideKey k c = None ->
  idMap !! overrideKey k c = None ->
  seriesId (planOne k idMap c) = seriesIdForCbsa (INDICATORS k) c.
Proof.
  intros Hs Hd. unfold planOne. cbn [seriesId]. now rewrite Hs, Hd.
Qed.

(** C3 (amended). Let the indicator need discovery, let a selected region
    have neither a static override nor a discovered id, let its search
    come back with an empty candidate list, and let no search of the run
    be rejected. Then no id is recorded for the pair; the pair stays
    planned under the id of the indicator's naming pattern; and, that id
    not being in the cache, its observations are requested in the same
    run. *)
Theorem empty_search_falls_back_to_pattern (prov : Provider) (st : State) (c : string)
    (text : string -> string) (json : option (list SeriesItem)) :
  let k := indicatorKey st in
  let pattern := seriesIdForCbsa (INDICATORS k) c in
  needsDiscovery (INDICATORS k) = true ->
  searchText (INDICATORS k) = Some text ->
  In c (selectedMsas st) ->
  SERIES_OVERRIDES !! overrideKey k c = None ->
  seriesIdMap st !! overrideKey k c = None ->
  search prov (text (msaName (planOne k (seriesIdMap st) c))) = HttpOk json ->
  default [] json = [] ->
  (forall q, search prov q <> Rejected) ->
  seriesCache st !! pattern = None ->
  seriesIdMap (fst (fetchMissing Number prov st)) !! overrideKey k c = None
  /\ seriesId (planOne k (seriesIdMap (fst (fetchMissing Number prov st))) c) = pattern
  /\ In (Observations pattern) (snd (fetchMissing Number prov st)).
Proof.
  intros k pattern Hneeds Htext Hsel Hstatic Hdyn Hsearch Hempty Hrej Hcache.
  set (p := planOne k (seriesIdMap st) c).
  assert (Hp : In p (plannedSeries st)).
  { unfold plannedSeries, plannedSeriesOf. now apply List.in_map. }
  assert (Hpid : seriesId p = pattern) by now apply planOne_pattern.
  (* the discovery step returns *)
  assert (Hds : exists ds, discoveriesOf prov st = Some ds).
  { unfold discoveriesOf. fold k. rewrite Hneeds.
    apply allResolved_all. intros x _. now apply (discoverOne_returns k _ prov x text). }
  destruct Hds as [ds Hds].
  (* and records nothing for the pair *)
  assert (Hmap : discoveredMap st ds !! overrideKey k c = None).
  { unfold discoveredMap. destruct (isEmpty (nonNull ds)); [exact Hdyn|].
    destruct (insertAll (seriesIdMap st) (nonNull ds) !! overrideKey k c) as [v|] eqn:Hl;
      [|reflexivity].
    exfalso. apply insertAll_lookup in Hl as [Hl|Hl]; [congruence|].
    apply nonNull_In in Hl.
    unfold discoveriesOf in Hds. fold k in Hds. rewrite Hneeds in Hds.
    apply allResolved_Some in Hds.
    assert (Hin : In (Some (Some (overrideKey k c, v))) (map Some ds))
      by now apply List.in_map.
    rewrite <- Hds in Hin. apply List.in_map_iff in Hin as (p' & Hp' & Hin').
    pose proof (discoverOne_key _ _ _ _ _ _ Hp') as Hkey.
    apply overrideKey_inj in Hkey.
    unfold plannedSeries, plannedSeriesOf in Hin'.
    apply List.in_map_iff in Hin' as (c' & <- & _).
    cbn [cbsa planOne] in Hkey. subst c'.
    fold k in Hp'. fold p in Hp'.
    rewrite (discoverOne_nothing_found k _ prov p text json Htext Hsearch Hempty) in Hp'.
    discriminate. }
  assert (Hmissing : In p (missingSeries (seriesCache st) (plannedSeries st))).
  { apply missingSeries_In. split; [exact Hp | now rewrite Hpid]. }
  rewrite fetchMissing_eq, Hds.
  destruct (missingSeries (seriesCache st) (plannedSeries st)) as [|m ms] eqn:Hm;
    [contradiction|].
  cbn [isEmpty].
  assert (Hreq : In (Observations pattern) (searchesOf prov st ++ fetchesOf st)).
  { apply in_or_app. right. unfold fetchesOf. rewrite Hm, <- Hpid.
    now apply (List.in_map (fun q => Observations (seriesId q))). }
  destruct (resultsOf Number prov st); cbn [fst snd settled seriesIdMap];
    (split; [exact Hmap | split; [now apply planOne_pattern | exact Hreq]]).
Qed.

End NothingFound.

Lemma empty_search_falls_back_to_pattern_witness :
  seriesIdMap (fst (fetchMissing Decimal.Number Sample.findsNothing Sample.atlantaState))
    !! "EMP_RATE|12060" = None
  /\ seriesId
       (planOne EMP_RATE
          (seriesIdMap (fst (fetchMissing Decimal.Number Sample.findsNothing
                               Sample.atlantaState)))
          "12060")
     = "LAUMT12120600000000003"
  /\ In (Observations "LAUMT12120600000000003")
       (snd (fetchMissing Decimal.Number Sample.findsNothing Sample.atlantaState)).
Proof.
  apply (empty_search_falls_back_to_pattern Decimal.Number Sample.findsNothing
           Sample.atlantaState "12060"
           (fun msaName => msaName ++ " Unemployment Rate") (Some [])).
  - reflexivity.
  - reflexivity.
  - simpl. left. reflexivity.
  - reflexivity.
  - reflexivity.
  - reflexivity.
  - reflexivity.
  - intros q. simpl. discriminate.
  - reflexivity.
Defined.

(** C3, as stated, fails: the search for Atlanta finds nothing and no id is
    recorded, yet the observations of the pattern id are requested in the
    same run, and with the provider answering that request the row of
    Atlanta has a latest observation. *)
Lemma empty_search_still_fetches :
  let out := effect Decimal.Number Sample.apiKey Sample.findsNothing Sample.atlantaState in
  search Sample.findsNothing "Atlanta–Sandy Springs–Roswell, GA Unemployment Rate"
    = HttpOk (Some [])
  /\ seriesIdMap (fst out) = ∅
  /\ snd out = [ Search "Atlanta–Sandy Springs–Roswell, GA Unemployment Rate";
                 Observations "LAUMT12120600000000003" ]
  /\ map snd (latestRows (seriesCache (fst out)) (plannedSeries (fst out)))
     = [ Some {| date := "2024-01-01"; value := 0%float |} ].
Proof. vm_compute. repeat split. Qed.

(** ** The unified date axis *)

Lemma existsb_eqb_In (x : string) (l : list string) :
  existsb (String.eqb x) l = true <-> In x l.
Proof.
  rewrite List.existsb_exists. split.
  - intros (y & Hy & He). apply String.eqb_eq in He. now subst.
  - intros H. exists x. split; [exact H | apply String.eqb_refl].
Qed.

Lemma setAdd_In (s : list string) (x y : string) :
  In y (setAdd s x) <-> In y s \/ y = x.
Proof.
  unfold setAdd. destruct (existsb (String.eqb x) s) eqn:He.
  - apply existsb_eqb_In in He. split; [auto | intros [H| ->]; auto].
  - rewrite List.in_app_iff. simpl. intuition (subst; auto).
Qed.

Lemma setAdd_NoDup (s : list string) (x : string) :
  List.NoDup s -> List.NoDup (setAdd s x).
Proof.
  intros Hnd. unfold setAdd. destruct (existsb (String.eqb x) s) eqn:He; [exact Hnd|].
  assert (Hx : ~ In x s).
  { intros Hin. apply existsb_eqb_In in Hin. congruence. }
  clear He. induction Hnd as [|h t Hh Ht IH]; simpl.
  - constructor; [tauto | constructor].
  - constructor.
    + rewrite List.in_app_iff. simpl. intros [H|[H|[]]]; [contradiction|].
      apply Hx. now left.
    + apply IH. intros H. apply Hx. now right.
Qed.

Lemma setAdd_member (s : list string) (x : string) : In x s -> setAdd s x = s.
Proof.
  intros H. unfold setAdd. apply existsb_eqb_In in H. now rewrite H.
Qed.

Lemma addRows_In (rows : list Observation) (s : list string) (d : string) :
  In d (addRows s rows) <-> In d s \/ In d (map date rows).
Proof.
  revert s; induction rows as [|r rows IH]; intros s; simpl; [tauto|].
  unfold addRows in *. simpl. rewrite IH, setAdd_In. intuition.
Qed.

Lemma addRows_NoDup (rows : list Observation) (s : list string) :
  List.NoDup s -> List.NoDup (addRows s rows).
Proof.
  revert s; induction rows as [|r rows IH]; intros s Hs; [exact Hs|].
  unfold addRows in *. simpl. apply IH. now apply setAdd_NoDup.
Qed.

Lemma addRows_members (rows : list Observation) (s : list string) :
  (forall r, In r rows -> In (date r) s) -> addRows s rows = s.
Proof.
  revert s; induction rows as [|r rows IH]; intros s H; [reflexivity|].
  unfold addRows in *. simpl. rewrite setAdd_member by (apply H; now left).
  apply IH. intros r' Hr'. apply H. now right.
Qed.

Lemma dateSetOf_addSeries (cache : gmap string (list Observation)) (planned : list Planned) :
  dateSetOf cache planned = addSeries cache [] planned.
Proof. reflexivity. Qed.

Lemma addSeries_In (cache : gmap string (list Observation)) (planned : list Planned)
    (s : list string) (d : string) :
  In d (addSeries cache s planned)
  <-> In d s \/ exists p, In p planned /\ In d (map date (rowsOf cache (seriesId p))).
Proof.
  revert s; induction planned as [|p planned IH]; intros s; simpl.
  - split; [auto | intros [H|(p & [] & _)]; exact H].
  - unfold addSeries in *. simpl. rewrite IH, addRows_In. split.
    + intros [[H|H]|(q & Hq & H)]; eauto 6.
    + intros [H|(q & [<-|Hq] & H)]; eauto 6.
Qed.

Lemma addSeries_NoDup (cache : gmap string (list Observation)) (planned : list Planned)
    (s : list string) :
  List.NoDup s -> List.NoDup (addSeries cache s planned).
Proof.
  revert s; induction planned as [|p planned IH]; intros s Hs; [exact Hs|].
  unfold addSeries in *. simpl. apply IH. now apply addRows_NoDup.
Qed.

Lemma addSeries_members (cache : gmap string (list Observation)) (planned : list Planned)
    (s : list string) :
  (forall p d, In p planned -> In d (map date (rowsOf cache (seriesId p))) -> In d s) ->
  addSeries cache s planned = s.
Proof.
  revert s; induction planned as [|p planned IH]; intros s H; [reflexivity|].
  unfold addSeries in *. simpl. rewrite addRows_members.
  - apply IH. intros q d Hq. apply H. now right.
  - intros r Hr. apply (H p); [now left | now apply List.in_map].
Qed.

Lemma addSeries_app (cache : gmap string (list Observation)) (l1 l2 : list Planned)
    (s : list string) :
  addSeries cache s (l1 ++ l2) = addSeries cache (addSeries cache s l1) l2.
Proof. unfold addSeries. apply fold_left_app. Qed.

Lemma unifiedDates_In (cache : gmap string (list Observation)) (planned : list Planned)
    (d : string) :
  In d (unifiedDates cache planned)
  <-> exists p, In p planned /\ In d (map date (rowsOf cache (seriesId p))).
Proof.
  unfold unifiedDates. rewrite sortBy_In, dateSetOf_addSeries, addSeries_In.
  simpl. tauto.
Qed.

Lemma unifiedDates_strict (cache : gmap string (list Observation)) (planned : list Planned) :
  StronglySorted dateLt (unifiedDates cache planned).
Proof.
  apply sorted_NoDup_strict.
  - apply (sortBy_sorted Str.localeCompare dateLe_total dateLe_trans).
  - unfold unifiedDates.
    apply (Permutation_NoDup (sortBy_perm Str.localeCompare _)).
    rewrite dateSetOf_addSeries. apply addSeries_NoDup. constructor.
Qed.

Lemma strict_ascending (l : list string) :
  StronglySorted dateLt l -> StronglySorted (cmpLe Str.localeCompare) l.
Proof.
  induction 1 as [|h t Ht IH Hh]; constructor; [exact IH|].
  eapply List.Forall_impl; [|exact Hh]. intros a Ha. apply dateLe_cases. now left.
Qed.

(** Feeding a duplicate-free array to a [Set] gives the array back. *)
Lemma fold_setAdd_NoDup (l acc : list string) :
  List.NoDup (acc ++ l) -> fold_left setAdd l acc = (acc ++ l)%list.
Proof.
  revert acc; induction l as [|x l IH]; intros acc Hnd; simpl.
  - now rewrite app_nil_r.
  - assert (Hx : existsb (String.eqb x) acc = false).
    { destruct (existsb (String.eqb x) acc) eqn:He; [|reflexivity].
      apply existsb_eqb_In in He. apply List.NoDup_remove_2 in Hnd.
      exfalso. apply Hnd. apply in_or_app. now left. }
    unfold setAdd at 2. rewrite Hx.
    rewrite IH; rewrite <- app_assoc; [reflexivity | exact Hnd].
Qed.

Lemma rowsOf_subseteq (cache cache' : gmap string (list Observation)) (id : string)
    (d : string) :
  cache ⊆ cache' ->
  In d (map date (rowsOf cache id)) -> In d (map date (rowsOf cache' id)).
Proof.
  intros Hsub. unfold rowsOf. destruct (cache !! id) as [rows|] eqn:Hl; [|contradiction].
  now rewrite (lookup_weaken _ _ _ _ Hl Hsub).
Qed.

(** C5. The unified axis is in strictly ascending order, so it is one array
    for one set of dates; computing the union and the sort over again
    changes nothing, whether from the axis itself or from the planned
    series taken twice; and when a region that is not selected is toggled
    on, with the cache keeping its series and gaining any others, every
    date of the axis is still on the new axis. *)
Theorem unifiedDates_idempotent_monotone (k : IndicatorKey) (idMap : gmap string string)
    (selected : list string) (c : string)
    (cache cache' : gmap string (list Observation)) :
  existsb (String.eqb c) selected = false ->
  cache ⊆ cache' ->
  let planned := plannedSeriesOf k idMap selected in
  let axis := unifiedDates cache planned in
  StronglySorted dateLt axis
  /\ sortBy Str.localeCompare (fold_left setAdd axis []) = axis
  /\ unifiedDates cache (planned ++ planned) = axis
  /\ plannedSeriesOf k idMap (toggle c selected) = (planned ++ [planOne k idMap c])%list
  /\ forall d, In d axis ->
       In d (unifiedDates cache' (plannedSeriesOf k idMap (toggle c selected))).
Proof.
  intros Hc Hsub planned axis.
  pose proof (unifiedDates_strict cache planned) as Hstrict. fold axis in Hstrict.
  assert (Htoggle : plannedSeriesOf k idMap (toggle c selected)
                    = (planned ++ [planOne k idMap c])%list).
  { unfold toggle. rewrite Hc. unfold planned, plannedSeriesOf. now rewrite map_app. }
  split; [exact Hstrict|]. split; [|split; [|split; [exact Htoggle|]]].
  - rewrite (fold_setAdd_NoDup axis []) by (now apply strict_NoDup).
    apply sortBy_sorted_id. now apply strict_ascending.
  - unfold axis, unifiedDates. f_equal.
    rewrite !dateSetOf_addSeries, addSeries_app.
    apply addSeries_members. intros p d Hp Hd.
    apply addSeries_In. right. eauto.
  - intros d Hd. rewrite Htoggle.
    apply unifiedDates_In in Hd as (p & Hp & Hd).
    apply unifiedDates_In. exists p. split.
    + apply in_or_app. now left.
    + now apply (rowsOf_subseteq cache cache').
Qed.

Lemma unifiedDates_idempotent_monotone_witness :
  let planned := plannedSeriesOf GDP ∅ ["33100"] in
  let axis := unifiedDates Sample.miamiCached planned in
  StronglySorted dateLt axis
  /\ sortBy Str.localeCompare (fold_left setAdd axis []) = axis
  /\ unifiedDates Sample.miamiCached (planned ++ planned) = axis
  /\ plannedSeriesOf GDP ∅ (toggle "45300" ["33100"])
     = (planned ++ [planOne GDP ∅ "45300"])%list
  /\ forall d, In d axis ->
       In d (unifiedDates Sample.tampaAdded (plannedSeriesOf GDP ∅ (toggle "45300" ["33100"]))).
Proof.
  apply (unifiedDates_idempotent_monotone GDP ∅ ["33100"] "45300"
           Sample.miamiCached Sample.tampaAdded).
  - reflexivity.
  - apply insert_subseteq. reflexivity.
Defined.

(** ** The table view *)

Lemma sliceLast_length {A : Type} (n : nat) (l : list A) :
  length (sliceLast n l) = Nat.min n (length l).
Proof. unfold sliceLast. rewrite List.length_skipn. lia. Qed.

Lemma sliceLast_suffix {A : Type} (n : nat) (l : list A) :
  exists older, l = (older ++ sliceLast n l)%list.
Proof.
  exists (firstn (length l - n) l). unfold sliceLast.
  symmetry. apply List.firstn_skipn.
Qed.

(** A cell holds a value of the series at the date, the one of the last
    row of that date, and the missing marker only when the series has no
    row of that date. *)
Lemma dateToVal_spec (rows : list Observation) (d : string) :
  match dateToVal rows d with
  | Some v => exists r, In r rows /\ date r = d /\ value r = v
  | None => ~ In d (map date rows)
  end.
Proof.
  induction rows as [|r rows IH]; simpl; [tauto|].
  destruct (dateToVal rows d) as [v|].
  - destruct IH as (r' & Hin & Hd & Hv). exists r'. auto.
  - destruct (String.eqb_spec (date r) d) as [He|Hne].
    + exists r. auto.
    + intros [H|H]; [contradiction | now apply IH].
Qed.

Lemma dateToVal_CellOf (rows : list Observation) (d : string) :
  CellOf (Some rows) d (dateToVal rows d).
Proof.
  induction rows as [|h t IH]; simpl.
  - left. tauto.
  - destruct (dateToVal t d) as [v|] eqn:Ht.
    + destruct IH as [[_ Hn]|(before & r & after & -> & Hd & Hafter & Hv)];
        [discriminate|].
      right. exists (h :: before), r, after. auto.
    + destruct IH as [[Hnone _]|(before & r & after & _ & _ & _ & Hv)];
        [|discriminate].
      destruct (String.eqb_spec (date h) d) as [He|Hne].
      * right. exists [], h, t. auto.
      * left. split; [|reflexivity]. intros [H|H]; contradiction.
Qed.

Lemma rowsOf_CellOf (cache : gmap string (list Observation)) (id d : string) :
  CellOf (cache !! id) d (dateToVal (rowsOf cache id) d).
Proof.
  unfold rowsOf. destruct (cache !! id) as [rows|]; simpl.
  - apply dateToVal_CellOf.
  - reflexivity.
Qed.

Lemma unifiedDates_OnAxis (cache : gmap string (list Observation)) (planned : list Planned)
    (d : string) :
  In d (unifiedDates cache planned) <-> OnAxis cache planned d.
Proof.
  rewrite unifiedDates_In. unfold OnAxis, rowsOf. split.
  - intros (p & Hp & Hd). destruct (cache !! seriesId p) as [rows|] eqn:Hc;
      [|contradiction].
    exists p, rows. auto.
  - intros (p & rows & Hp & Hc & Hd). exists p. rewrite Hc. auto.
Qed.

Lemma Forall2_map_r {X Y : Type} (P : X -> Y -> Prop) (f : X -> Y) (l : list X) :
  (forall x, P x (f x)) -> List.Forall2 P l (map f l).
Proof. intros H. induction l; simpl; constructor; auto. Qed.

(** C9. With one region selected the table is in mode "single", its rows
    are the series stored in the cache under the id planned for that
    region (none when nothing is stored), and the body shows the last 50
    of them, all of them when there are fewer. With two or more regions
    selected the table is in mode "multi": the unified axis holds, in
    strictly ascending order, exactly the dates of the rows stored under
    the planned ids; the table has the last 12 dates of the axis, all of
    them when there are fewer, one row per such date, and in each row one
    cell per planned series, in order, that holds the value of the last
    stored row of that date or the missing marker when there is none. *)
Theorem tableData_modes (st : State) :
  (forall c,
     let cache := seriesCache (withSelected [c] st) in
     let planned := plannedSeries (withSelected [c] st) in
     exists only rows,
       planned = [only]
       /\ cbsa only = c
       /\ rows = match seriesCache st !! seriesId only with
                 | Some stored => stored
                 | None => []
                 end
       /\ tableData cache planned = Single rows
       /\ mode (tableData cache planned) = "single"
       /\ length (singleTableBody rows) = Nat.min 50 (length rows)
       /\ exists older, rows = (older ++ singleTableBody rows)%list)
  /\ (forall c1 c2 more,
        let cache := seriesCache (withSelected (c1 :: c2 :: more) st) in
        let planned := plannedSeries (withSelected (c1 :: c2 :: more) st) in
        let axis := unifiedDates cache planned in
        exists dates rows,
          tableData cache planned = Multi dates rows
          /\ mode (tableData cache planned) = "multi"
          /\ map cbsa planned = c1 :: c2 :: more
          /\ StronglySorted dateLt axis
          /\ (forall d, In d axis <-> OnAxis (seriesCache st) planned d)
          /\ dates = sliceLast 12 axis
          /\ length dates = Nat.min 12 (length axis)
          /\ (exists older, axis = (older ++ dates)%list)
          /\ map row_date rows = dates
          /\ Forall (fun row =>
                       List.Forall2
                         (fun p cell =>
                            CellOf (seriesCache st !! seriesId p) (row_date row) cell)
                         planned (values row)) rows).
Proof.
  split.
  - intros c cache planned.
    exists (planOne (indicatorKey st) (seriesIdMap st) c).
    eexists. split; [reflexivity|]. split; [reflexivity|]. split; [reflexivity|].
    split.
    + unfold planned, cache, plannedSeries, plannedSeriesOf.
      cbn [withSelected selectedMsas indicatorKey seriesIdMap seriesCache map tableData].
      unfold rowsOf.
      now destruct (seriesCache st !! seriesId (planOne (indicatorKey st) (seriesIdMap st) c)).
    + split; [reflexivity|].
      split; [apply sliceLast_length | apply sliceLast_suffix].
  - intros c1 c2 more cache planned axis.
    set (dates := sliceLast 12 axis).
    exists dates.
    exists (map (fun date =>
                   {| row_date := date;
                      values := map (fun p => dateToVal (rowsOf cache (seriesId p)) date)
                                  planned |}) dates).
    split; [reflexivity|]. split; [reflexivity|].
    split.
    { unfold planned, plannedSeries, plannedSeriesOf.
      cbn [withSelected selectedMsas]. rewrite List.map_map. cbn [cbsa planOne].
      apply List.map_id. }
    split; [apply unifiedDates_strict|].
    split; [intros d; apply unifiedDates_OnAxis|].
    split; [reflexivity|].
    split; [apply sliceLast_length|]. split; [apply sliceLast_suffix|].
    split.
    + rewrite List.map_map. cbn [row_date]. apply List.map_id.
    + rewrite List.Forall_forall. intros row Hrow.
      apply List.in_map_iff in Hrow as (date & <- & _). cbn [row_date values].
      apply Forall2_map_r. intros p. apply rowsOf_CellOf.
Qed.

(** ** The scenarios of the specification, run *)

(** Employment rate for Atlanta: the query of the search, the candidate
    picked, and the value 5.0 turned into 95.0. *)
Example EMP_RATE_Atlanta :
  (fun text => text (msaName (planOne EMP_RATE ∅ "12060")))
    <$> searchText (INDICATORS EMP_RATE)
  = Some "Atlanta–Sandy Springs–Roswell, GA Unemployment Rate"
  /\ EMP_RATE_pickSeries
       [ {| item_id := "ATLA013URN"; title := "Unemployment Rate in Atlanta (MSA)" |};
         {| item_id := "LAUMT131206000000003";
            title := "Unemployment Rate in Atlanta-Sandy Springs-Roswell, GA (MSA)" |} ]
       {| ctx_cbsa := "12060"; ctx_msaName := "Atlanta" |}
     = Some "LAUMT131206000000003"
  /\ (fun f => f (Decimal.Number "5.0")) <$> transformValue (INDICATORS EMP_RATE)
     = Some 95%float.
Proof. vm_compute. repeat split. Qed.

(** Housing Inventory for Miami and Tampa: the planned series. *)
Example HOUSING_HPI_Miami_Tampa :
  plannedSeries (Sample.housingState ∅)
  = [ {| cbsa := "33100";
         msaName := "Miami–Fort Lauderdale–West Palm Beach, FL";
         seriesId := "ACTLISCOU33100" |};
      {| cbsa := "45300";
         msaName := "Tampa–St. Petersburg–Clearwater, FL";
         seriesId := "ACTLISCOU45300" |} ].
Proof. reflexivity. Qed.

(** Two regions in the cache: the pivoted table, with the missing marker
    where a series has no value at the date. *)
Example table_of_two_regions :
  tableData Sample.tampaAdded (plannedSeriesOf GDP ∅ ["33100"; "45300"])
  = Multi ["2021-01-01"; "2022-01-01"; "2023-01-01"]
      [ {| row_date := "2021-01-01"; values := [None; Some 3%float] |};
        {| row_date := "2022-01-01"; values := [Some 1%float; None] |};
        {| row_date := "2023-01-01"; values := [Some 2%float; Some 4%float] |} ].
Proof. vm_compute. reflexivity. Qed.

(** * Further properties *)

(** ** The pick function of EMP_RATE *)

Lemma isLaumt_iff (s : SeriesItem) : isLaumt s = true <-> matchesLaumt s.
Proof.
  unfold isLaumt, matchesLaumt, Str.testPrefixI, Str.testI.
  rewrite andb_true_iff, prefix_iff_app, includes_iff_app. reflexivity.
Qed.

Lemma upper_empty (s : string) : Str.upper s = "" -> s = "".
Proof. destruct s; [reflexivity | discriminate]. Qed.

Lemma matchesLaumt_id (s : SeriesItem) : matchesLaumt s -> item_id s <> "".
Proof.
  intros [[r Hr] _] He. rewrite He in Hr. discriminate.
Qed.

(** On a non-empty candidate list the pick function of EMP_RATE returns
    the id of a member of the list: the first member whose id starts with
    LAUMT and whose title contains "Unemployment Rate", letter case
    ignored, and the first member of the list when there is none. The
    context is not looked at. *)
Theorem EMP_RATE_pickSeries_preference (items : list SeriesItem) (ctx : PickCtx) :
  items <> [] ->
  exists s,
    EMP_RATE_pickSeries items ctx = Some (item_id s)
    /\ In s items
    /\ (FirstWith matchesLaumt items s
        \/ (Forall (fun x => ~ matchesLaumt x) items /\ head items = Some s)).
Proof.
  intros Hne. unfold EMP_RATE_pickSeries.
  change (List.filter _ items) with (List.filter isLaumt items).
  rewrite head_filter.
  destruct (List.find isLaumt items) as [s|] eqn:Hfind.
  - destruct (find_first _ _ _ Hfind) as (b & a & Hitems & Hs & Hb).
    apply isLaumt_iff in Hs.
    exists s. split; [|split].
    + unfold jsOr. simpl.
      destruct (String.eqb_spec (item_id s) "") as [He|_]; [|reflexivity].
      now apply matchesLaumt_id in Hs.
    + rewrite Hitems. apply in_or_app. right. now left.
    + left. exists b, a. split; [exact Hitems|]. split; [exact Hs|].
      now apply (Forall_false_not isLaumt _ _ isLaumt_iff).
  - destruct items as [|s rest]; [congruence|].
    exists s. split; [reflexivity|]. split; [now left|].
    right. split; [|reflexivity].
    apply (Forall_false_not isLaumt _ _ isLaumt_iff). now apply find_none.
Qed.

Lemma EMP_RATE_pickSeries_preference_witness :
  exists s,
    EMP_RATE_pickSeries Demo.unemployment Sample.atlantaCtx = Some (item_id s)
    /\ In s Demo.unemployment
    /\ (FirstWith matchesLaumt Demo.unemployment s
        \/ (Forall (fun x => ~ matchesLaumt x) Demo.unemployment
            /\ head Demo.unemployment = Some s)).
Proof.
  apply (EMP_RATE_pickSeries_preference Demo.unemployment Sample.atlantaCtx).
  discriminate.
Defined.

(** ** What discovery records *)

Lemma HOUSING_HPI_pickSeries_member (items : list SeriesItem) (ctx : PickCtx) (v : string) :
  HOUSING_HPI_pickSeries items ctx = Some v -> exists s, In s items /\ item_id s = v.
Proof.
  unfold HOUSING_HPI_pickSeries.
  set (cands := List.filter _ items).
  assert (Hsub : forall x, In x cands -> In x items).
  { intros x Hx. now apply List.filter_In in Hx. }
  destruct (List.find _ cands) as [s|] eqn:Hf.
  - intros [= <-]. exists s. split; [|reflexivity].
    apply Hsub. now apply List.find_some in Hf.
  - destruct cands as [|c cs]; simpl.
    + destruct items as [|s rest]; [discriminate|]. intros [= <-]. exists s. simpl. auto.
    + intros [= <-]. exists c. split; [|reflexivity]. apply Hsub. now left.
Qed.

Lemma EMP_RATE_pickSeries_member (items : list SeriesItem) (ctx : PickCtx) (v : string) :
  EMP_RATE_pickSeries items ctx = Some v -> exists s, In s items /\ item_id s = v.
Proof.
  unfold EMP_RATE_pickSeries, jsOr.
  set (cands := List.filter _ items).
  assert (Hsub : forall x, In x cands -> In x items).
  { intros x Hx. now apply List.filter_In in Hx. }
  destruct (truthy _) eqn:Ht.
  - destruct cands as [|c cs]; [discriminate|]. simpl.
    intros [= <-]. exists c. split; [|reflexivity]. apply Hsub. now left.
  - destruct items as [|s rest]; [discriminate|]. simpl.
    intros [= <-]. exists s. auto.
Qed.

(** An id that the discovery callback records for a planned series is
    never made up: the key is the one of the series' region under the
    current indicator, no id was recorded for it before, and the id is the
    non-empty id of a candidate that the search for that region
    returned. *)
Theorem discovered_id_is_a_candidate (k : IndicatorKey)
    (idMap : gmap string string) (prov : Provider) (p : Planned) (key v : string) :
  snd (discoverOne k idMap prov p) = Some (Some (key, v)) ->
  key = overrideKey k (cbsa p)
  /\ truthy (idMap !! key) = false
  /\ v <> ""
  /\ exists text items s,
       searchText (INDICATORS k) = Some text
       /\ search prov (text (msaName p)) = HttpOk (Some items)
       /\ In s items /\ item_id s = v
       /\ In (Search (text (msaName p))) (fst (discoverOne k idMap prov p)).
Proof.
  intros H. pose proof (discoverOne_key _ _ _ _ _ _ H) as ->.
  split; [reflexivity|]. revert H. unfold discoverOne.
  destruct (truthy (idMap !! overrideKey k (cbsa p))) eqn:Ht; [discriminate|].
  destruct (searchText (INDICATORS k)) as [text|] eqn:Htext; [|discriminate].
  cbn [fst snd].
  destruct (search prov (text (msaName p))) as [| |json] eqn:Hs; try discriminate.
  destruct json as [items|]; [|simpl; discriminate].
  change (default [] (Some items)) with items.
  destruct (isEmpty items) eqn:He; [discriminate|].
  set (ctx := {| ctx_cbsa := cbsa p; ctx_msaName := msaName p |}).
  destruct (match pickSeries (INDICATORS k) with Some _ => _ | None => _ end)
    as [picked|] eqn:Hpick; [|discriminate].
  destruct (String.eqb_spec picked "") as [|Hne]; [discriminate|].
  intros [= <-]. split; [reflexivity|]. split; [exact Hne|].
  assert (Hmem : exists s, In s items /\ item_id s = picked).
  { destruct k; cbn [INDICATORS pickSeries] in Hpick.
    - now apply (EMP_RATE_pickSeries_member items ctx).
    - now apply (HOUSING_HPI_pickSeries_member items ctx).
    - destruct items as [|s rest]; [discriminate|]. injection Hpick as <-.
      exists s. simpl. auto. }
  destruct Hmem as (s & Hin & Hid).
  exists text, items, s. repeat split; auto. now left.
Qed.

Lemma discovered_id_is_a_candidate_witness :
  "EMP_RATE|12060" = overrideKey EMP_RATE (cbsa Demo.atlantaPlanned)
  /\ truthy ((∅ : gmap string string) !! "EMP_RATE|12060") = false
  /\ "LAUMT131206000000003" <> ""
  /\ exists text items s,
       searchText (INDICATORS EMP_RATE) = Some text
       /\ search Demo.finds (text (msaName Demo.atlantaPlanned)) = HttpOk (Some items)
       /\ In s items /\ item_id s = "LAUMT131206000000003"
       /\ In (Search (text (msaName Demo.atlantaPlanned)))
            (fst (discoverOne EMP_RATE ∅ Demo.finds Demo.atlantaPlanned)).
Proof.
  apply (discovered_id_is_a_candidate EMP_RATE ∅ Demo.finds
           Demo.atlantaPlanned "EMP_RATE|12060" "LAUMT131206000000003").
  reflexivity.
Defined.

(** ** Invariants of a session *)

Lemma forallb_true {X : Type} (l : list X) : forallb (fun _ => true) l = true.
Proof. induction l; simpl; auto. Qed.

Lemma insertAll_lookup_fresh {V : Type} (entries : list (string * V)) (m : gmap string V)
    (k : string) :
  ~ In k (map fst entries) -> insertAll m entries !! k = m !! k.
Proof.
  revert m; induction entries as [|[k' v'] es IH]; intros m Hk; simpl; [reflexivity|].
  simpl in Hk. rewrite IH by tauto. apply lookup_insert_ne. tauto.
Qed.

Lemma insertAll_is_Some_in {V : Type} (entries : list (string * V)) (m : gmap string V)
    (k : string) :
  In k (map fst entries) -> is_Some (insertAll m entries !! k).
Proof.
  revert m; induction entries as [|[k' v'] es IH]; intros m; simpl; [tauto|].
  destruct (List.in_dec String.string_dec k (map fst es)) as [Hin|Hnin].
  - intros _. now apply IH.
  - intros [<-|Hin]; [|contradiction].
    apply insertAll_is_Some. rewrite lookup_insert_eq. eauto.
Qed.

Lemma toggle_NoDup (c : string) (l : list string) :
  List.NoDup l -> List.NoDup (toggle c l).
Proof.
  intros Hnd. unfold toggle. destruct (existsb (String.eqb c) l) eqn:He.
  - now apply List.NoDup_filter.
  - assert (Hc : ~ In c l).
    { intros Hin. apply existsb_eqb_In in Hin. congruence. }
    apply List.NoDup_app; [exact Hnd | constructor; [tauto | constructor] |].
    intros x Hx [<-|[]]. contradiction.
Qed.

Section Invariants.

Variable Number : string -> float.
Variable apiKey : option string.

(** A property of the state that every allowed turn keeps is kept by every
    session of allowed turns. *)
Lemma run_invariant (allowed : Event -> bool) (P : State -> Prop) :
  (forall ev st, allowed ev = true -> P st -> P (fst (step Number apiKey ev st))) ->
  forall evs st, forallb allowed evs = true -> P st -> P (fst (run Number apiKey evs st)).
Proof.
  intros Hstep evs. induction evs as [|ev evs IH]; intros st Hall HP; simpl; [exact HP|].
  simpl in Hall. apply andb_true_iff in Hall as [Hev Hall].
  pose proof (Hstep ev st Hev HP) as H1.
  destruct (step Number apiKey ev st) as [st1 r1]. simpl in H1.
  specialize (IH st1 Hall H1).
  destruct (run Number apiKey evs st1) as [st2 r2]. exact IH.
Qed.

(** The results of a batch: one per missing series, each the cleaning of
    the response to its request. *)
Lemma resultsOf_In (prov : Provider) (st : State) (rs : list (string * list Observation))
    (id : string) (rows : list Observation) :
  resultsOf Number prov st = Some rs ->
  (In (id, rows) rs <->
   exists p json,
     In p (missingSeries (seriesCache st) (plannedSeries st))
     /\ seriesId p = id
     /\ observations prov id = HttpOk json
     /\ rows = cleanObservations Number (INDICATORS (indicatorKey st)) json).
Proof.
  intros Hrs. apply allResolved_Some in Hrs. split.
  - intros Hin.
    assert (Hs : In (Some (id, rows)) (map Some rs)) by now apply List.in_map.
    rewrite <- Hrs in Hs. apply List.in_map_iff in Hs as (p & Hp & Hmiss).
    unfold fetchOne in Hp. simpl in Hp.
    destruct (observations prov (seriesId p)) as [| |json] eqn:Ho; try discriminate.
    injection Hp as <- <-. exists p, json. auto.
  - intros (p & json & Hmiss & <- & Ho & ->).
    assert (Hs : In (Some (seriesId p,
                           cleanObservations Number (INDICATORS (indicatorKey st)) json))
                   (map Some rs)).
    { rewrite <- Hrs. apply List.in_map_iff. exists p. split; [|exact Hmiss].
      unfold fetchOne. simpl. now rewrite Ho. }
    apply List.in_map_iff in Hs as (e & [= ->] & He). exact He.
Qed.

Lemma resultsOf_keys_missing (prov : Provider) (st : State)
    (rs : list (string * list Observation)) (id : string) :
  resultsOf Number prov st = Some rs ->
  In id (map fst rs) -> seriesCache st !! id = None.
Proof.
  intros Hrs Hin. apply List.in_map_iff in Hin as ([id' rows] & <- & Hin).
  apply (resultsOf_In prov st rs id' rows Hrs) in Hin as (p & json & Hp & <- & _).
  now apply missingSeries_In in Hp.
Qed.

(** A run of the effect leaves every series of the cache as it is. *)
Lemma fetchMissing_keeps_series (prov : Provider) (st : State) (id : string)
    (rows : list Observation) :
  seriesCache st !! id = Some rows ->
  seriesCache (fst (fetchMissing Number prov st)) !! id = Some rows.
Proof.
  intros Hc. fetchMissing_outcomes Number prov st; simpl; try exact Hc.
  rewrite insertAll_lookup_fresh; [exact Hc|].
  intros Hin. apply (resultsOf_keys_missing prov st rs id Hrs) in Hin. congruence.
Qed.

Lemma effect_selection (prov : Provider) (st : State) :
  selectedMsas (fst (effect Number apiKey prov st)) = selectedMsas st
  /\ indicatorKey (fst (effect Number apiKey prov st)) = indicatorKey st.
Proof.
  unfold effect. destruct (truthy apiKey); [|now split].
  destruct (fetchMissing_selection Number prov st) as [-> ->]. now split.
Qed.

(** In every session no region is selected twice, so no two planned
    series are for the same region. *)
Theorem selection_has_no_duplicates (evs : list Event) :
  List.NoDup (selectedMsas (fst (run Number apiKey evs initialState)))
  /\ List.NoDup (map cbsa (plannedSeries (fst (run Number apiKey evs initialState)))).
Proof.
  assert (H : List.NoDup (selectedMsas (fst (run Number apiKey evs initialState)))).
  { apply (run_invariant (fun _ => true) (fun s => List.NoDup (selectedMsas s)));
      [|apply forallb_true|].
    - intros ev s _ Hnd. destruct ev as [k|c| |prov]; simpl.
      + exact Hnd.
      + now apply toggle_NoDup.
      + constructor.
      + now rewrite (proj1 (effect_selection prov s)).
    - simpl. constructor; [|constructor; [tauto | constructor]].
      intros [H|[]]. discriminate. }
  split; [exact H|].
  unfold plannedSeries, plannedSeriesOf. rewrite List.map_map. cbn [cbsa planOne].
  now rewrite List.map_id.
Qed.

End Invariants.

(** ** The two state updates of a run *)

Lemma insertAll_lookup_in {V : Type} (entries : list (string * V)) (m : gmap string V)
    (k : string) (v : V) :
  In k (map fst entries) -> insertAll m entries !! k = Some v -> In (k, v) entries.
Proof.
  revert m; induction entries as [|[k' v'] es IH]; intros m; simpl; [tauto|].
  destruct (List.in_dec String.string_dec k (map fst es)) as [Hin|Hnin].
  - intros _ Hl. right. now apply (IH (<[k':=v']> m) Hin).
  - intros [<-|Hin] Hl; [|contradiction].
    rewrite insertAll_lookup_fresh, lookup_insert_eq in Hl by exact Hnin.
    left. congruence.
Qed.

Section Updates.

Variable Number : string -> float.

Lemma resultsOf_keys (prov : Provider) (st : State) (rs : list (string * list Observation)) :
  resultsOf Number prov st = Some rs ->
  map fst rs = map seriesId (missingSeries (seriesCache st) (plannedSeries st)).
Proof.
  unfold resultsOf. generalize (missingSeries (seriesCache st) (plannedSeries st)).
  intros l. revert rs. induction l as [|p l IH]; intros rs; simpl.
  - now intros [= <-].
  - destruct (observations prov (seriesId p)) as [| |json]; try discriminate.
    destruct (allResolved _) as [rs'|]; [|discriminate].
    intros [= <-]. simpl. now rewrite (IH rs').
Qed.

(** The cache update of a batch whose requests all came back, applied to
    whatever cache is current at that moment: every series that the run
    found missing from the cache of its own render is set to the cleaning
    of the response to its request, over anything cached in the meantime;
    every other entry is left as it is, so a series that was cached when
    the run started is never touched. *)
Theorem cache_update_of_a_run (prov : Provider) (st : State)
    (rs : list (string * list Observation)) (prev : gmap string (list Observation))
    (id : string) :
  resultsOf Number prov st = Some rs ->
  cacheUpdate rs prev !! id
  = (if existsb (String.eqb id)
          (map seriesId (missingSeries (seriesCache st) (plannedSeries st)))
     then match observations prov id with
          | HttpOk json =>
              Some (cleanObservations Number (INDICATORS (indicatorKey st)) json)
          | _ => None
          end
     else prev !! id)
  /\ (is_Some (seriesCache st !! id) -> cacheUpdate rs prev !! id = prev !! id).
Proof.
  intros Hrs. pose proof (resultsOf_keys prov st rs Hrs) as Hkeys.
  assert (Hfresh : ~ In id (map seriesId (missingSeries (seriesCache st) (plannedSeries st)))
                   -> cacheUpdate rs prev !! id = prev !! id).
  { intros Hn. unfold cacheUpdate. apply insertAll_lookup_fresh. now rewrite Hkeys. }
  split.
  - destruct (existsb _ _) eqn:He.
    + apply existsb_eqb_In in He.
      assert (Hin : In id (map fst rs)) by now rewrite Hkeys.
      destruct (insertAll_is_Some_in rs prev id Hin) as [rows Hl].
      unfold cacheUpdate. rewrite Hl.
      apply (insertAll_lookup_in rs prev id rows Hin) in Hl.
      apply (resultsOf_In Number prov st rs id rows Hrs) in Hl
        as (p & json & _ & _ & Hj & ->).
      now rewrite Hj.
    + apply Hfresh. intros Hin. apply existsb_eqb_In in Hin. congruence.
  - intros [rows Hc]. apply Hfresh. intros Hin.
    apply List.in_map_iff in Hin as (p & <- & Hp).
    apply missingSeries_In in Hp as [_ Hp]. congruence.
Qed.

(** The update of the map of ids of a run whose discovery step returned,
    applied to whatever map is current at that moment: it writes only keys
    of series planned by the run for which the map of the run's own render
    held no id, so a key that had an id when the run started, or that is
    not the key of a planned series, is left as it is. *)
Theorem idMap_update_of_a_run (prov : Provider) (st : State)
    (ds : list (option (string * string))) (prev : gmap string string) (key : string) :
  discoveriesOf prov st = Some ds ->
  truthy (seriesIdMap st !! key) = true
  \/ ~ In key (map (fun p => overrideKey (indicatorKey st) (cbsa p)) (plannedSeries st)) ->
  idMapUpdate (nonNull ds) prev !! key = prev !! key.
Proof.
  intros Hds Hkey. unfold idMapUpdate. apply insertAll_lookup_fresh.
  intros Hin. apply List.in_map_iff in Hin as ([key' v'] & <- & Hin). cbn [fst] in Hkey.
  apply nonNull_In in Hin. unfold discoveriesOf in Hds.
  destruct (needsDiscovery _); [|injection Hds as <-; contradiction].
  apply allResolved_Some in Hds.
  assert (Hs : In (Some (Some (key', v'))) (map Some ds)) by now apply List.in_map.
  rewrite <- Hds in Hs. apply List.in_map_iff in Hs as (p & Hp & Hplanned).
  pose proof (discoverOne_key _ _ _ _ _ _ Hp) as ->.
  destruct Hkey as [Ht|Hn].
  - unfold discoverOne in Hp. rewrite Ht in Hp. discriminate.
  - apply Hn. apply List.in_map_iff. exists p. auto.
Qed.

End Updates.

Lemma cache_update_of_a_run_witness :
  cacheUpdate [("RGMP45300", cleanObservations Decimal.Number (INDICATORS GDP) (Some Sample.raw))]
    Sample.tampaAdded !! "RGMP45300"
  = (if existsb (String.eqb "RGMP45300")
          (map seriesId (missingSeries (seriesCache Sample.gdpMiamiCached)
                           (plannedSeries Sample.gdpMiamiCached)))
     then match observations Sample.findsNothing "RGMP45300" with
          | HttpOk json =>
              Some (cleanObservations Decimal.Number
                      (INDICATORS (indicatorKey Sample.gdpMiamiCached)) json)
          | _ => None
          end
     else Sample.tampaAdded !! "RGMP45300")
  /\ (is_Some (seriesCache Sample.gdpMiamiCached !! "RGMP45300") ->
      cacheUpdate
        [("RGMP45300", cleanObservations Decimal.Number (INDICATORS GDP) (Some Sample.raw))]
        Sample.tampaAdded !! "RGMP45300"
      = Sample.tampaAdded !! "RGMP45300").
Proof.
  apply (cache_update_of_a_run Decimal.Number Sample.findsNothing Sample.gdpMiamiCached
           [("RGMP45300", cleanObservations Decimal.Number (INDICATORS GDP) (Some Sample.raw))]
           Sample.tampaAdded "RGMP45300").
  reflexivity.
Defined.

Lemma idMap_update_of_a_run_witness :
  idMapUpdate (nonNull [None; Some ("EMP_RATE|33100", "LAUMT123310000000003")])
    (<["EMP_RATE|12060" := "OTHER"]> ∅) !! "EMP_RATE|12060"
  = (<["EMP_RATE|12060" := "OTHER"]> ∅ : gmap string string) !! "EMP_RATE|12060".
Proof.
  apply (idMap_update_of_a_run Demo.searchesMiami Demo.discoveredPlusMiami
           [None; Some ("EMP_RATE|33100", "LAUMT123310000000003")]
           (<["EMP_RATE|12060" := "OTHER"]> ∅) "EMP_RATE|12060").
  - reflexivity.
  - left. reflexivity.
Defined.

(** ** Runs of the effect *)

Section Runs.

Variable Number : string -> float.

Lemma needsDiscovery_searchText (k : IndicatorKey) :
  needsDiscovery (INDICATORS k) = true ->
  exists text, searchText (INDICATORS k) = Some text.
Proof. destruct k; simpl; intros H; [eauto | eauto | discriminate]. Qed.

Lemma discovery_resolves (prov : Provider) (st : State) :
  (forall q, search prov q <> Rejected) ->
  exists ds, discoveriesOf prov st = Some ds.
Proof.
  intros Hrej. unfold discoveriesOf.
  destruct (needsDiscovery _) eqn:Hn; [|eauto].
  destruct (needsDiscovery_searchText _ Hn) as [text Ht].
  apply allResolved_all. intros p _.
  now apply (discoverOne_returns _ _ prov p text).
Qed.

Lemma discoverOne_queryOf (k : IndicatorKey) (idMap : gmap string string)
    (prov : Provider) (p : Planned) :
  fst (discoverOne k idMap prov p) = queryOf k idMap p.
Proof.
  unfold discoverOne, queryOf. destruct (truthy _); [reflexivity|].
  now destruct (searchText _).
Qed.

Lemma searchesOf_queries (prov : Provider) (st : State) :
  searchesOf prov st
  = if needsDiscovery (INDICATORS (indicatorKey st))
    then flat_map (queryOf (indicatorKey st) (seriesIdMap st)) (plannedSeries st)
    else [].
Proof.
  unfold searchesOf. destruct (needsDiscovery _); [|reflexivity].
  rewrite List.flat_map_concat_map. f_equal. apply List.map_ext.
  intros p. apply discoverOne_queryOf.
Qed.

(** When no search is rejected, a run issues its requests in two rounds:
    first, if the indicator needs discovery, one search per planned series
    whose key has no id yet, in the order of the selection; then one
    observations request per planned series that is not in the cache, in
    the same order. *)
Theorem requests_of_a_run (prov : Provider) (st : State) :
  (forall q, search prov q <> Rejected) ->
  snd (fetchMissing Number prov st)
  = ((if needsDiscovery (INDICATORS (indicatorKey st))
      then flat_map (queryOf (indicatorKey st) (seriesIdMap st)) (plannedSeries st)
      else [])
     ++ map (fun p => Observations (seriesId p))
          (missingSeries (seriesCache st) (plannedSeries st)))%list.
Proof.
  intros Hrej. rewrite <- (searchesOf_queries prov st). fold (fetchesOf st).
  destruct (discovery_resolves prov st Hrej) as [ds Hds].
  rewrite fetchMissing_eq, Hds. unfold fetchesOf.
  destruct (missingSeries (seriesCache st) (plannedSeries st)) as [|m ms]; cbn [isEmpty].
  - simpl. now rewrite app_nil_r.
  - now destruct (resultsOf Number prov st).
Qed.

(** A rejected search ends the run at once: the map of ids and the cache
    are left as they were and no observations are requested, not even
    those of a series planned under a static override or a pattern. *)
Theorem rejected_search_ends_the_run (prov : Provider) (st : State) (p : Planned)
    (text : string -> string) :
  needsDiscovery (INDICATORS (indicatorKey st)) = true ->
  searchText (INDICATORS (indicatorKey st)) = Some text ->
  In p (plannedSeries st) ->
  truthy (seriesIdMap st !! overrideKey (indicatorKey st) (cbsa p)) = false ->
  search prov (text (msaName p)) = Rejected ->
  seriesIdMap (fst (fetchMissing Number prov st)) = seriesIdMap st
  /\ seriesCache (fst (fetchMissing Number prov st)) = seriesCache st
  /\ forall id, ~ In (Observations id) (snd (fetchMissing Number prov st)).
Proof.
  intros Hn Ht Hp Hid Hs.
  assert (Hds : discoveriesOf prov st = None).
  { unfold discoveriesOf. rewrite Hn. apply allResolved_None.
    apply List.in_map_iff. exists p. split; [|exact Hp].
    unfold discoverOne. rewrite Hid, Ht. cbn [snd]. now rewrite Hs. }
  rewrite fetchMissing_eq, Hds. cbn [fst snd settled seriesIdMap seriesCache].
  split; [reflexivity|]. split; [reflexivity|].
  intros id. apply (searchesOf_only_searches Number).
Qed.

(** Every planned series whose request succeeds in a batch where all
    requests succeed is in the cache afterwards. *)
Lemma fetchMissing_caches_planned (prov : Provider) (st : State) :
  (forall q, search prov q <> Rejected) ->
  (forall p, In p (plannedSeries st) ->
     exists json, observations prov (seriesId p) = HttpOk json) ->
  forall p, In p (plannedSeries st) ->
    exists rows,
      seriesCache (fst (fetchMissing Number prov st)) !! seriesId p = Some rows
      /\ (seriesCache st !! seriesId p = Some rows
          \/ (seriesCache st !! seriesId p = None
              /\ exists json,
                   observations prov (seriesId p) = HttpOk json
                   /\ rows = cleanObservations Number (INDICATORS (indicatorKey st)) json)).
Proof.
  intros Hrej Hok p Hp.
  destruct (seriesCache st !! seriesId p) as [rows|] eqn:Hc.
  - exists rows. split; [now apply fetchMissing_keeps_series | now left].
  - assert (Hmiss : In p (missingSeries (seriesCache st) (plannedSeries st)))
      by now apply missingSeries_In.
    destruct (discovery_resolves prov st Hrej) as [ds Hds].
    assert (Hrs : exists rs, resultsOf Number prov st = Some rs).
    { unfold resultsOf. apply allResolved_all. intros q Hq.
      apply missingSeries_In in Hq as [Hq _].
      destruct (Hok q Hq) as [json Hj]. unfold fetchOne. simpl. rewrite Hj. eauto. }
    destruct Hrs as [rs Hrs].
    destruct (Hok p Hp) as [json Hj].
    set (rows := cleanObservations Number (INDICATORS (indicatorKey st)) json).
    assert (Hin : In (seriesId p, rows) rs).
    { apply (resultsOf_In Number prov st rs _ _ Hrs). exists p, json. auto. }
    exists rows. split; [|right; split; [reflexivity | eauto]].
    rewrite fetchMissing_eq, Hds.
    destruct (missingSeries (seriesCache st) (plannedSeries st)) as [|m ms] eqn:Hm;
      [contradiction|].
    cbn [isEmpty]. rewrite Hrs. cbn [fst settled seriesCache].
    destruct (insertAll_is_Some_in rs (seriesCache st) (seriesId p)) as [rows' Hl].
    { apply List.in_map_iff. exists (seriesId p, rows). auto. }
    rewrite Hl. f_equal.
    apply insertAll_lookup in Hl as [Hl|Hl]; [congruence|].
    apply (resultsOf_In Number prov st rs _ _ Hrs) in Hl as (q & json' & _ & _ & Hj' & ->).
    rewrite Hj in Hj'. injection Hj' as <-. reflexivity.
Qed.

(** When no request of a run fails, every planned series is in the cache
    afterwards: one that was cached keeps its observations, one that was
    missing has the cleaning of the response to its request. *)
Theorem successful_run_caches_every_planned_series (prov : Provider) (st : State)
    (p : Planned) :
  (forall q, search prov q <> Rejected) ->
  (forall q, In q (plannedSeries st) ->
     exists json, observations prov (seriesId q) = HttpOk json) ->
  In p (plannedSeries st) ->
  exists rows,
    seriesCache (fst (fetchMissing Number prov st)) !! seriesId p = Some rows
    /\ (seriesCache st !! seriesId p = Some rows
        \/ (seriesCache st !! seriesId p = None
            /\ exists json,
                 observations prov (seriesId p) = HttpOk json
                 /\ rows = cleanObservations Number (INDICATORS (indicatorKey st)) json)).
Proof.
  intros Hrej Hok Hp. now apply fetchMissing_caches_planned.
Qed.

(** A run from a state where nothing is left to discover and nothing is
    missing issues no request and changes neither map. *)
Lemma fetchMissing_quiet (prov : Provider) (st : State) :
  needsDiscovery (INDICATORS (indicatorKey st)) = false ->
  missingSeries (seriesCache st) (plannedSeries st) = [] ->
  fetchMissing Number prov st = (settled st (seriesIdMap st) (seriesCache st), []).
Proof.
  intros Hn Hm. rewrite fetchMissing_eq.
  unfold discoveriesOf, searchesOf, discoveredMap. rewrite Hn, Hm. reflexivity.
Qed.

(** Under an indicator that needs no discovery, once a run has gone
    through without a failed request, running the effect again does
    nothing: no request is issued, whatever the provider would answer, and
    the state is left as it is. *)
Theorem effect_settles (prov prov' : Provider) (st : State) :
  needsDiscovery (INDICATORS (indicatorKey st)) = false ->
  (forall q, In q (plannedSeries st) ->
     exists json, observations prov (seriesId q) = HttpOk json) ->
  fetchMissing Number prov' (fst (fetchMissing Number prov st))
  = (fst (fetchMissing Number prov st), []).
Proof.
  intros Hn Hok.
  set (st' := fst (fetchMissing Number prov st)).
  assert (Hsel : indicatorKey st' = indicatorKey st /\ selectedMsas st' = selectedMsas st)
    by apply fetchMissing_selection.
  destruct Hsel as [Hk Hsel].
  assert (Hmap : seriesIdMap st' = seriesIdMap st).
  { unfold st'. rewrite fetchMissing_eq. unfold discoveriesOf, discoveredMap.
    rewrite Hn. cbn [nonNull isEmpty].
    destruct (isEmpty _); [reflexivity|].
    now destruct (resultsOf Number prov st). }
  assert (Hplanned : plannedSeries st' = plannedSeries st).
  { unfold plannedSeries. now rewrite Hk, Hsel, Hmap. }
  assert (Hmiss : missingSeries (seriesCache st') (plannedSeries st') = []).
  { rewrite Hplanned.
    destruct (missingSeries (seriesCache st') (plannedSeries st)) as [|p ps] eqn:Hnil;
      [reflexivity|].
    exfalso.
    assert (Hp : In p (missingSeries (seriesCache st') (plannedSeries st)))
      by (rewrite Hnil; now left).
    clear Hnil. apply missingSeries_In in Hp as [Hp Hc].
    assert (Hs : is_Some (seriesCache st' !! seriesId p)).
    { unfold st'. rewrite fetchMissing_eq.
      unfold discoveriesOf, discoveredMap. rewrite Hn.
      destruct (seriesCache st !! seriesId p) as [rows|] eqn:Hl.
      - destruct (isEmpty _); [simpl; rewrite Hl; eauto|].
        destruct (resultsOf Number prov st) as [rs|] eqn:Hrs; cbn [fst settled seriesCache].
        + apply insertAll_is_Some. rewrite Hl. eauto.
        + rewrite Hl. eauto.
      - assert (Hm : In p (missingSeries (seriesCache st) (plannedSeries st)))
          by now apply missingSeries_In.
        destruct (missingSeries (seriesCache st) (plannedSeries st)) as [|m ms] eqn:Hms;
          [contradiction|].
        cbn [isEmpty].
        assert (Hrs : exists rs, resultsOf Number prov st = Some rs).
        { unfold resultsOf. apply allResolved_all. intros q Hq. rewrite Hms in Hq.
          rewrite <- Hms in Hq. apply missingSeries_In in Hq as [Hq _].
          destruct (Hok q Hq) as [json Hj]. unfold fetchOne. simpl. rewrite Hj. eauto. }
        destruct Hrs as [rs Hrs]. rewrite Hrs. cbn [fst settled seriesCache].
        apply insertAll_is_Some_in. apply List.in_map_iff.
        destruct (Hok p Hp) as [json Hj].
        exists (seriesId p, cleanObservations Number (INDICATORS (indicatorKey st)) json).
        split; [reflexivity|].
        apply (resultsOf_In Number prov st rs _ _ Hrs). exists p, json.
        rewrite Hms. auto. }
    destruct Hs as [rows Hs]. congruence. }
  rewrite fetchMissing_quiet; [|now rewrite Hk | exact Hmiss].
  f_equal. unfold st'. clear.
  fetchMissing_outcomes Number prov st; reflexivity.
Qed.

End Runs.

Lemma requests_of_a_run_witness :
  snd (fetchMissing Decimal.Number Demo.finds Sample.atlantaState)
  = ((if needsDiscovery (INDICATORS (indicatorKey Sample.atlantaState))
      then flat_map (queryOf (indicatorKey Sample.atlantaState)
                       (seriesIdMap Sample.atlantaState))
             (plannedSeries Sample.atlantaState)
      else [])
     ++ map (fun p => Observations (seriesId p))
          (missingSeries (seriesCache Sample.atlantaState)
             (plannedSeries Sample.atlantaState)))%list.
Proof.
  apply (requests_of_a_run Decimal.Number Demo.finds Sample.atlantaState).
  intros q. simpl. discriminate.
Defined.

Lemma rejected_search_ends_the_run_witness :
  seriesIdMap (fst (fetchMissing Decimal.Number Demo.offline Sample.atlantaState))
    = seriesIdMap Sample.atlantaState
  /\ seriesCache (fst (fetchMissing Decimal.Number Demo.offline Sample.atlantaState))
     = seriesCache Sample.atlantaState
  /\ forall id,
       ~ In (Observations id)
           (snd (fetchMissing Decimal.Number Demo.offline Sample.atlantaState)).
Proof.
  apply (rejected_search_ends_the_run Decimal.Number Demo.offline Sample.atlantaState
           Demo.atlantaPlanned (fun msaName => msaName ++ " Unemployment Rate")).
  - reflexivity.
  - reflexivity.
  - simpl. left. reflexivity.
  - reflexivity.
  - reflexivity.
Defined.

Lemma successful_run_caches_every_planned_series_witness :
  exists rows,
    seriesCache (fst (fetchMissing Decimal.Number Demo.finds Sample.atlantaState))
      !! seriesId Demo.atlantaPlanned = Some rows
    /\ (seriesCache Sample.atlantaState !! seriesId Demo.atlantaPlanned = Some rows
        \/ (seriesCache Sample.atlantaState !! seriesId Demo.atlantaPlanned = None
            /\ exists json,
                 observations Demo.finds (seriesId Demo.atlantaPlanned) = HttpOk json
                 /\ rows = cleanObservations Decimal.Number
                             (INDICATORS (indicatorKey Sample.atlantaState)) json)).
Proof.
  apply (successful_run_caches_every_planned_series Decimal.Number Demo.finds
           Sample.atlantaState Demo.atlantaPlanned).
  - intros q. simpl. discriminate.
  - intros q _. simpl. eauto.
  - simpl. left. reflexivity.
Defined.

Lemma effect_settles_witness :
  fetchMissing Decimal.Number Demo.offline
    (fst (fetchMissing Decimal.Number Sample.findsNothing Sample.gdpState))
  = (fst (fetchMissing Decimal.Number Sample.findsNothing Sample.gdpState), []).
Proof.
  apply (effect_settles Decimal.Number Sample.findsNothing Demo.offline Sample.gdpState).
  - reflexivity.
  - intros q _. simpl. eauto.
Defined.

(** ** Without an API key *)

(** Without an API key a session issues no request at all, and its cache
    and its map of ids stay empty. *)
Theorem no_key_no_request (Number : string -> float) (apiKey : option string)
    (evs : list Event) :
  truthy apiKey = false ->
  snd (run Number apiKey evs initialState) = []
  /\ seriesCache (fst (run Number apiKey evs initialState)) = ∅
  /\ seriesIdMap (fst (run Number apiKey evs initialState)) = ∅.
Proof.
  intros Hkey.
  assert (Hstep : forall ev st, snd (step Number apiKey ev st) = []).
  { intros ev st. destruct ev; simpl; try reflexivity. unfold effect. now rewrite Hkey. }
  split.
  - generalize initialState. induction evs as [|ev evs IH]; intros st; simpl; [reflexivity|].
    pose proof (Hstep ev st) as H1. destruct (step Number apiKey ev st) as [st1 r1].
    simpl in H1. subst r1. specialize (IH st1).
    destruct (run Number apiKey evs st1) as [st2 r2]. simpl in IH. now subst r2.
  - apply (run_invariant Number apiKey (fun _ => true)
             (fun s => seriesCache s = ∅ /\ seriesIdMap s = ∅));
      [|apply forallb_true | now split].
    intros ev s _ [Hc Hm]. destruct ev as [k|c| |prov]; simpl; try (now split).
    unfold effect. rewrite Hkey. now split.
Qed.

Lemma no_key_no_request_witness :
  snd (run Decimal.Number None
         [ToggleMsa "36740"; RunEffect Demo.finds; SelectIndicator GDP; RunEffect Demo.finds]
         initialState) = []
  /\ seriesCache
       (fst (run Decimal.Number None
               [ToggleMsa "36740"; RunEffect Demo.finds; SelectIndicator GDP;
                RunEffect Demo.finds] initialState)) = ∅
  /\ seriesIdMap
       (fst (run Decimal.Number None
               [ToggleMsa "36740"; RunEffect Demo.finds; SelectIndicator GDP;
                RunEffect Demo.finds] initialState)) = ∅.
Proof.
  apply (no_key_no_request Decimal.Number None
           [ToggleMsa "36740"; RunEffect Demo.finds; SelectIndicator GDP;
            RunEffect Demo.finds]).
  reflexivity.
Defined.

(** ** Keys and pattern ids *)

Lemma string_length_app (a b : string) :
  String.length (a ++ b) = (String.length a + String.length b)%nat.
Proof. induction a as [|c a IH]; simpl; [reflexivity | now rewrite IH]. Qed.

Lemma string_app_inv_tail (s a b : string) : a ++ s = b ++ s -> a = b.
Proof.
  revert b; induction a as [|c a IH]; intros [|d b] H; simpl in H.
  - reflexivity.
  - apply (f_equal String.length) in H. rewrite !string_length_app in H.
    cbn [String.length] in H. lia.
  - apply (f_equal String.length) in H. rewrite !string_length_app in H.
    cbn [String.length] in H. lia.
  - injection H as -> H. f_equal. now apply IH.
Qed.

(** Two indicator|region keys are equal only for the same indicator and
    the same region: the map of ids and the override table never confuse
    two pairs. *)
Theorem overrideKey_injective (k k' : IndicatorKey) (c c' : string) :
  overrideKey k c = overrideKey k' c' -> k = k' /\ c = c'.
Proof.
  intros H.
  assert (Hk : k = k') by (destruct k, k'; try reflexivity; discriminate).
  subst k'. split; [reflexivity | now apply (overrideKey_inj k)].
Qed.

Lemma overrideKey_injective_witness : HOUSING_HPI = HOUSING_HPI /\ "33100" = "33100".
Proof.
  apply (overrideKey_injective HOUSING_HPI HOUSING_HPI "33100" "33100"). reflexivity.
Defined.

(** Under one indicator the naming pattern gives different regions
    different series ids. *)
Theorem seriesIdForCbsa_injective (k : IndicatorKey) (c c' : string) :
  seriesIdForCbsa (INDICATORS k) c = seriesIdForCbsa (INDICATORS k) c' -> c = c'.
Proof.
  destruct k; cbn [INDICATORS seriesIdForCbsa]; intros H.
  - apply (string_app_inv_head "LAUMT12") in H.
    now apply (string_app_inv_tail "0000000003") in H.
  - now apply (string_app_inv_head "ACTLISCOU") in H.
  - now apply (string_app_inv_head "RGMP") in H.
Qed.

Lemma seriesIdForCbsa_injective_witness : "12060" = "12060".
Proof. apply (seriesIdForCbsa_injective EMP_RATE "12060" "12060"). reflexivity. Defined.

(** ** Toggling a region *)

Lemma toggle_flips_one_region_aux (c x : string) (l : list string) :
  In x (toggle c l) -> x = c \/ In x l.
Proof.
  unfold toggle. destruct (existsb (String.eqb c) l).
  - intros H. apply List.filter_In in H. tauto.
  - intros H. apply in_app_or in H as [H|[<-|[]]]; auto.
Qed.

(** Toggling a region changes the selection for that region only: it is
    selected afterwards exactly when it was not before, and every other
    region is selected afterwards exactly when it was before. *)
Theorem toggle_flips_one_region (c x : string) (l : list string) :
  In x (toggle c l) <-> (x = c /\ ~ In c l) \/ (x <> c /\ In x l).
Proof.
  unfold toggle. destruct (existsb (String.eqb c) l) eqn:He.
  - apply existsb_eqb_In in He. rewrite List.filter_In. split.
    + intros [Hin Hne]. right. split; [|exact Hin].
      intros ->. rewrite String.eqb_refl in Hne. discriminate.
    + intros [[-> Hn]|[Hne Hin]]; [contradiction|]. split; [exact Hin|].
      destruct (String.eqb_spec x c); [contradiction | reflexivity].
  - assert (Hc : ~ In c l) by (intros Hin; apply existsb_eqb_In in Hin; congruence).
    rewrite List.in_app_iff. simpl. split.
    + intros [Hin|[<-|[]]]; [|now left]. right. split; [|exact Hin].
      intros ->. contradiction.
    + intros [[-> _]|[_ Hin]]; auto.
Qed.

(** Selecting a region that is not selected and deselecting it again gives
    back the selection as it was, order included. *)
Theorem toggle_on_then_off (c : string) (st : State) :
  ~ In c (selectedMsas st) ->
  In c (selectedMsas (onToggleMsa c st))
  /\ onToggleMsa c (onToggleMsa c st) = st.
Proof.
  intros Hc.
  assert (He : existsb (String.eqb c) (selectedMsas st) = false).
  { destruct (existsb _ _) eqn:He; [|reflexivity].
    apply existsb_eqb_In in He. contradiction. }
  assert (Hon : toggle c (selectedMsas st) = (selectedMsas st ++ [c])%list)
    by (unfold toggle; now rewrite He).
  split.
  - unfold onToggleMsa, withSelected. cbn [selectedMsas]. rewrite Hon.
    apply in_or_app. right. now left.
  - unfold onToggleMsa at 1. unfold withSelected.
    assert (Hoff : toggle c (selectedMsas (onToggleMsa c st)) = selectedMsas st).
    { unfold onToggleMsa, withSelected. cbn [selectedMsas]. rewrite Hon. unfold toggle.
      assert (Hin : existsb (String.eqb c) (selectedMsas st ++ [c]) = true).
      { apply existsb_eqb_In. apply in_or_app. right. now left. }
      rewrite Hin, List.filter_app. simpl. rewrite String.eqb_refl. simpl.
      rewrite app_nil_r. apply List.forallb_filter_id.
      apply List.forallb_forall. intros x Hx.
      destruct (String.eqb_spec x c) as [->|]; [contradiction | reflexivity]. }
    rewrite Hoff. destruct st. reflexivity.
Qed.

Lemma toggle_on_then_off_witness :
  In "36740" (selectedMsas (onToggleMsa "36740" initialState))
  /\ onToggleMsa "36740" (onToggleMsa "36740" initialState) = initialState.
Proof.
  apply (toggle_on_then_off "36740" initialState).
  simpl. intros [H|[H|[]]]; discriminate.
Defined.

(** ** Cleaning, once more *)

Lemma StronglySorted_map {X Y : Type} (f : X -> Y) (R : Y -> Y -> Prop) (l : list X) :
  StronglySorted (fun a b => R (f a) (f b)) l <-> StronglySorted R (map f l).
Proof.
  induction l as [|h t IH]; simpl.
  - split; constructor.
  - split; intros H; inversion H as [|? ? Ht Hh]; subst; constructor;
      try (now apply IH).
    + rewrite List.Forall_map. exact Hh.
    + rewrite List.Forall_map in Hh. exact Hh.
Qed.

(** A response whose records, the markers aside, come in ascending order
    of date is cached in that very order: the sort moves nothing, and the
    series has one observation per record that is not a marker. *)
Theorem ordered_response_keeps_its_order (Number : string -> float)
    (indicator : Indicator) (json : option (list RawObservation)) :
  let kept := List.filter (fun d => negb (String.eqb (raw_value d) ".")) (default [] json) in
  StronglySorted (fun a b => dateLe (raw_date a) (raw_date b)) kept ->
  cleanObservations Number indicator json = map (cleanRecord Number indicator) kept
  /\ map date (cleanObservations Number indicator json) = map raw_date kept.
Proof.
  intros kept Hs.
  assert (E : cleanObservations Number indicator json
              = map (cleanRecord Number indicator) kept).
  { unfold cleanObservations. fold kept.
    apply (sortBy_sorted_id byDate).
    apply (StronglySorted_map (cleanRecord Number indicator) (cmpLe byDate)).
    exact Hs. }
  split; [exact E|]. rewrite E, List.map_map. reflexivity.
Qed.

Lemma ordered_response_keeps_its_order_witness :
  cleanObservations Decimal.Number (INDICATORS GDP) (Some Sample.repeated)
  = map (cleanRecord Decimal.Number (INDICATORS GDP))
      (List.filter (fun d => negb (String.eqb (raw_value d) "."))
         (default [] (Some Sample.repeated)))
  /\ map date (cleanObservations Decimal.Number (INDICATORS GDP) (Some Sample.repeated))
     = map raw_date
         (List.filter (fun d => negb (String.eqb (raw_value d) "."))
            (default [] (Some Sample.repeated))).
Proof.
  apply (ordered_response_keeps_its_order Decimal.Number (INDICATORS GDP)
           (Some Sample.repeated)).
  simpl. repeat constructor; unfold dateLe; vm_compute; discriminate.
Defined.

(** ** Reading a series at a date *)

Lemma dateToVal_found (rows : list Observation) (r : Observation) :
  List.NoDup (map date rows) -> In r rows -> dateToVal rows (date r) = Some (value r).
Proof.
  induction rows as [|h t IH]; intros Hnd Hin; [contradiction|].
  simpl in Hnd. apply List.NoDup_cons_iff in Hnd as [Hh Hnd]. simpl.
  destruct Hin as [->|Hin].
  - pose proof (dateToVal_spec t (date r)) as Hspec.
    destruct (dateToVal t (date r)) as [v|].
    + destruct Hspec as (r' & Hr' & Hd & _). exfalso. apply Hh.
      rewrite <- Hd. now apply List.in_map.
    + now rewrite String.eqb_refl.
  - now rewrite (IH Hnd Hin).
Qed.

(** In a series without a repeated date every observation is found at its
    date, with its value; at a date of no observation the missing marker
    is found. *)
Theorem dateToVal_reads_back (rows : list Observation) :
  List.NoDup (map date rows) ->
  Forall (fun r => dateToVal rows (date r) = Some (value r)) rows
  /\ forall d, ~ In d (map date rows) -> dateToVal rows d = None.
Proof.
  intros Hnd. split.
  - apply List.Forall_forall. intros r Hr. now apply dateToVal_found.
  - intros d Hd. pose proof (dateToVal_spec rows d) as Hspec.
    destruct (dateToVal rows d) as [v|]; [|reflexivity].
    destruct Hspec as (r & Hr & <- & _). exfalso. apply Hd. now apply List.in_map.
Qed.

Lemma dateToVal_reads_back_witness :
  Forall (fun r => dateToVal Demo.miamiRows (date r) = Some (value r)) Demo.miamiRows
  /\ forall d, ~ In d (map date Demo.miamiRows) -> dateToVal Demo.miamiRows d = None.
Proof.
  apply (dateToVal_reads_back Demo.miamiRows).
  simpl. repeat constructor; simpl; intuition discriminate.
Defined.

(** ** The axis, once more *)

Lemma strictlyAscending_dates (rows : list Observation) :
  strictlyAscending rows <-> StronglySorted dateLt (map date rows).
Proof. apply (StronglySorted_map date dateLt). Qed.

Lemma addRows_dates (rows : list Observation) (s : list string) :
  addRows s rows = fold_left setAdd (map date rows) s.
Proof.
  revert s; induction rows as [|r rows IH]; intros s; [reflexivity|].
  unfold addRows in *. simpl. apply IH.
Qed.

(** With one region planned and its cached series in strictly ascending
    order of date, the unified axis is the list of the dates of the
    series. *)
Theorem axis_of_one_series (cache : gmap string (list Observation)) (p : Planned)
    (rows : list Observation) :
  cache !! seriesId p = Some rows ->
  strictlyAscending rows ->
  unifiedDates cache [p] = map date rows.
Proof.
  intros Hc Hs. apply strictlyAscending_dates in Hs.
  unfold unifiedDates, dateSetOf, rowsOf. simpl. rewrite Hc. simpl.
  change (fold_left (fun dateSet r => setAdd dateSet (date r)) rows [])
    with (addRows [] rows).
  rewrite addRows_dates, (fold_setAdd_NoDup (map date rows) [])
    by (now apply strict_NoDup).
  simpl. apply sortBy_sorted_id. now apply strict_ascending.
Qed.

Lemma axis_of_one_series_witness :
  unifiedDates Sample.miamiCached [Demo.miamiPlanned] = map date Demo.miamiRows.
Proof.
  apply (axis_of_one_series Sample.miamiCached Demo.miamiPlanned Demo.miamiRows).
  - reflexivity.
  - repeat constructor; unfold dateLt; vm_compute; reflexivity.
Defined.

Lemma strict_sorted_unique (l1 l2 : list string) :
  StronglySorted dateLt l1 -> StronglySorted dateLt l2 ->
  (forall x, In x l1 <-> In x l2) -> l1 = l2.
Proof.
  intros H1; revert l2. induction H1 as [|h1 t1 Ht1 IH Hh1]; intros l2 H2 Hmem.
  - destruct l2 as [|h2 t2]; [reflexivity|].
    exfalso. apply (Hmem h2). now left.
  - destruct H2 as [|h2 t2 Ht2 Hh2].
    + exfalso. apply (Hmem h1). now left.
    + rewrite List.Forall_forall in Hh1, Hh2.
      assert (Hh : h1 = h2).
      { destruct (proj1 (Hmem h1) (or_introl eq_refl)) as [E|Hin1]; [now symmetry|].
        destruct (proj2 (Hmem h2) (or_introl eq_refl)) as [E|Hin2]; [exact E|].
        exfalso. apply (dateLt_irrefl h1).
        apply (dateLt_trans h1 h2 h1); [now apply Hh1 | now apply Hh2]. }
      subst h2. f_equal. apply IH; [exact Ht2|].
      intros x. split; intros Hx.
      * destruct (proj1 (Hmem x) (or_intror Hx)) as [<-|Hin]; [|exact Hin].
        exfalso. exact (dateLt_irrefl h1 (Hh1 h1 Hx)).
      * destruct (proj2 (Hmem x) (or_intror Hx)) as [<-|Hin]; [|exact Hin].
        exfalso. exact (dateLt_irrefl h1 (Hh2 h1 Hx)).
Qed.

(** The unified axis does not depend on the order in which the regions
    were selected, nor on a series being planned more than once: two
    lists of planned series with the same members give the same axis. *)
Theorem axis_ignores_selection_order (cache : gmap string (list Observation))
    (planned planned' : list Planned) :
  (forall p, In p planned <-> In p planned') ->
  unifiedDates cache planned = unifiedDates cache planned'.
Proof.
  intros Hmem. apply strict_sorted_unique; try apply unifiedDates_strict.
  intros d. rewrite !unifiedDates_In. split; intros (p & Hp & Hd); exists p;
    (split; [now apply Hmem | exact Hd]).
Qed.

Lemma axis_ignores_selection_order_witness :
  unifiedDates Sample.tampaAdded (plannedSeriesOf GDP ∅ ["33100"; "45300"])
  = unifiedDates Sample.tampaAdded (plannedSeriesOf GDP ∅ ["45300"; "33100"]).
Proof.
  apply (axis_ignores_selection_order Sample.tampaAdded
           (plannedSeriesOf GDP ∅ ["33100"; "45300"])
           (plannedSeriesOf GDP ∅ ["45300"; "33100"])).
  intros p. simpl. tauto.
Defined.

(** ** The charts *)

Lemma map_lookup {X Y : Type} (f : X -> Y) (l : list X) (i : nat) :
  map f l !! i = f <$> (l !! i).
Proof.
  revert i; induction l as [|h t IH]; intros [|i]; simpl; auto.
Qed.

Lemma In_lookup {X : Type} (l : list X) (x : X) : In x l -> exists i, l !! i = Some x.
Proof.
  induction l as [|h t IH]; [contradiction|].
  intros [->|Hin]; [now exists 0%nat|].
  destruct (IH Hin) as [i Hi]. now exists (S i).
Qed.

Section ChartFacts.

Variable codeUnits : string -> list Z.

(** The line chart loses no observation: for the planned series at
    position [j], if its cached rows repeat no date, every row has a label
    on the axis, and the dataset at position [j], which carries the name
    of the region and as many points as there are labels, has the value of
    the row at the index of that label. *)
Theorem chartData_shows_every_observation (cache : gmap string (list Observation))
    (planned : list Planned) (j : nat) (p : Planned) (r : Observation) :
  planned !! j = Some p ->
  List.NoDup (map date (rowsOf cache (seriesId p))) ->
  In r (rowsOf cache (seriesId p)) ->
  exists ds i,
    datasets (chartData codeUnits cache planned) !! j = Some ds
    /\ ds_label ds = msaName p
    /\ length (ds_data ds) = length (labels (chartData codeUnits cache planned))
    /\ labels (chartData codeUnits cache planned) !! i = Some (date r)
    /\ ds_data ds !! i = Some (Some (value r)).
Proof.
  intros Hj Hnd Hr.
  assert (Hax : In (date r) (unifiedDates cache planned)).
  { apply unifiedDates_In. exists p. split.
    - apply list_elem_of_In. now apply list_elem_of_lookup_2 in Hj.
    - now apply List.in_map. }
  destruct (In_lookup _ _ Hax) as [i Hi].
  unfold chartData. cbn [datasets labels].
  rewrite map_lookup, Hj. cbn [fmap option_fmap option_map].
  eexists. exists i. split; [reflexivity|]. cbn [ds_label ds_data].
  split; [reflexivity|]. split; [apply List.length_map|]. split; [exact Hi|].
  rewrite map_lookup, Hi. cbn [fmap option_fmap option_map].
  f_equal. now apply dateToVal_found.
Qed.

(** The comparison table and the stacked bar chart show the same dates,
    and the same numbers transposed: the cell of row [i] and column [j] of
    the table is point [i] of dataset [j] of the chart, and the one is
    absent exactly when the other is. *)
Theorem table_is_the_stacked_chart_transposed (cache : gmap string (list Observation))
    (p1 p2 : Planned) (more : list Planned) (i j : nat) :
  let planned := p1 :: p2 :: more in
  exists dates rows,
    tableData cache planned = Multi dates rows
    /\ labels (stackedBarData codeUnits cache planned) = dates
    /\ length rows = length dates
    /\ length (datasets (stackedBarData codeUnits cache planned)) = length planned
    /\ (rows !! i ≫= fun row => values row !! j)
       = (datasets (stackedBarData codeUnits cache planned) !! j
            ≫= fun ds => ds_data ds !! i).
Proof.
  intros planned.
  set (dates := sliceLast 12 (unifiedDates cache planned)).
  exists dates. eexists. split; [reflexivity|].
  unfold stackedBarData. cbn [labels datasets]. fold dates.
  split; [reflexivity|]. split; [apply List.length_map|].
  split; [apply List.length_map|].
  rewrite !map_lookup.
  destruct (dates !! i) as [d|] eqn:Hd, (planned !! j) as [p|] eqn:Hp;
    cbn [fmap option_fmap option_map mbind option_bind values ds_data];
    rewrite ?map_lookup, ?Hd, ?Hp; reflexivity.
Qed.

Lemma border_agrees (c n : string) :
  border (lineColor codeUnits c n) = barBorder codeUnits c n
  /\ border (stackedColor codeUnits c n) = barBorder codeUnits c n.
Proof.
  unfold lineColor, stackedColor, barBorder.
  destruct (String.eqb c "36740"); [now split|].
  destruct (String.eqb c "33100"); [now split|].
  destruct (String.eqb c "12060"); [now split|].
  destruct (String.eqb c "45300"); now split.
Qed.

(** A region has the same border colour and the same name in the three
    charts, whether its colour is pinned or computed from its name. *)
Theorem charts_agree_on_borders_and_names (k : IndicatorKey)
    (cache : gmap string (list Observation)) (planned : list Planned) :
  map ds_borderColor (datasets (chartData codeUnits cache planned))
    = bar_borderColor (barData codeUnits k cache planned)
  /\ map ds_borderColor (datasets (stackedBarData codeUnits cache planned))
     = bar_borderColor (barData codeUnits k cache planned)
  /\ map ds_label (datasets (chartData codeUnits cache planned))
     = bar_labels (barData codeUnits k cache planned)
  /\ map ds_label (datasets (stackedBarData codeUnits cache planned))
     = bar_labels (barData codeUnits k cache planned).
Proof.
  unfold chartData, stackedBarData, barData.
  cbn [datasets bar_borderColor bar_labels]. rewrite !List.map_map.
  cbn [ds_borderColor ds_label].
  repeat split; try reflexivity; apply List.map_ext; intros p; apply border_agrees.
Qed.

End ChartFacts.

Lemma chartData_shows_every_observation_witness :
  exists ds i,
    datasets (chartData asciiUnits Sample.tampaAdded (plannedSeriesOf GDP ∅ ["33100"; "45300"]))
      !! 0%nat = Some ds
    /\ ds_label ds = msaName Demo.miamiPlanned
    /\ length (ds_data ds)
       = length (labels (chartData asciiUnits Sample.tampaAdded
                           (plannedSeriesOf GDP ∅ ["33100"; "45300"])))
    /\ labels (chartData asciiUnits Sample.tampaAdded
                 (plannedSeriesOf GDP ∅ ["33100"; "45300"])) !! i
       = Some (date {| date := "2023-01-01"; value := 2%float |})
    /\ ds_data ds !! i = Some (Some (value {| date := "2023-01-01"; value := 2%float |})).
Proof.
  apply (chartData_shows_every_observation asciiUnits Sample.tampaAdded
           (plannedSeriesOf GDP ∅ ["33100"; "45300"]) 0 Demo.miamiPlanned
           {| date := "2023-01-01"; value := 2%float |}).
  - reflexivity.
  - vm_compute. repeat constructor; simpl; intuition discriminate.
  - vm_compute. right. left. reflexivity.
Defined.

(** ** The latest observation *)

Lemma ascending_last (rows : list Observation) (r : Observation) :
  ascending rows -> last rows = Some r ->
  Forall (fun r' => dateLe (date r') (date r)) rows.
Proof.
  unfold ascending. induction 1 as [|h t Ht IH Hh]; intros Hl; [constructor|].
  destruct t as [|h' t'].
  - injection Hl as <-. constructor; [|constructor]. apply dateLe_cases. now right.
  - change (last (h :: h' :: t')) with (last (h' :: t')) in Hl.
    constructor; [|now apply IH].
    rewrite List.Forall_forall in Hh. apply Hh.
    apply list_elem_of_In. now apply last_Some_elem_of.
Qed.

(** In every session the latest observation of a cached series, the one
    shown on the card of the region and in the comparison bar chart, is
    one of the greatest date: no observation of the series is newer. *)
Theorem latest_is_newest (Number : string -> float) (apiKey : option string)
    (evs : list Event) (id : string) (rows : list Observation) (r : Observation) :
  seriesCache (fst (run Number apiKey evs initialState)) !! id = Some rows ->
  last rows = Some r ->
  In r rows /\ Forall (fun r' => dateLe (date r') (date r)) rows.
Proof.
  intros Hc Hl. split.
  - apply list_elem_of_In. now apply last_Some_elem_of.
  - assert (Hinit : cleanedCache Number (seriesCache initialState)).
    { intros i x H. simpl in H. rewrite lookup_empty in H. discriminate. }
    destruct (run_cleaned Number apiKey evs initialState Hinit id rows Hc)
      as (indicator & json & ->).
    apply ascending_last; [apply cleanObservations_ascending | exact Hl].
Qed.

Lemma latest_is_newest_witness :
  In {| date := "2024-01-01"; value := 100%float |}
     [ {| date := "2024-01-01"; value := 100%float |} ]
  /\ Forall (fun r' => dateLe (date r') (date {| date := "2024-01-01"; value := 100%float |}))
       [ {| date := "2024-01-01"; value := 100%float |} ].
Proof.
  apply (latest_is_newest Decimal.Number Sample.apiKey
           [SelectIndicator GDP; RunEffect Sample.findsNothing] "RGMP33100").
  - vm_compute. reflexivity.
  - reflexivity.
Defined.

(** ** The colour computed from a name *)

Lemma toInt32_range (z : Z) : (- 2 ^ 31 <= Hash.toInt32 z < 2 ^ 31)%Z.
Proof.
  unfold Hash.toInt32.
  pose proof (Z.mod_pos_bound (z + 2 ^ 31) (2 ^ 32) ltac:(lia)). lia.
Qed.

Lemma toInt32_small (z : Z) : (- 2 ^ 31 <= z < 2 ^ 31)%Z -> Hash.toInt32 z = z.
Proof.
  intros H. unfold Hash.toInt32. rewrite Z.mod_small; lia.
Qed.

Lemma hash_fold_bound (key : list Z) (h : Z) :
  Forall (fun c => 0 <= c < 65536)%Z key ->
  (Z.abs (fold_left Hash.step key h) <= Z.abs h + Z.of_nat (length key) * 2 ^ 32)%Z.
Proof.
  revert h; induction key as [|c key IH]; intros h Hk; simpl fold_left.
  - simpl. lia.
  - inversion Hk as [|? ? Hc Hk']; subst.
    specialize (IH (Hash.step h c) Hk').
    assert (Hs : (Z.abs (Hash.step h c) <= Z.abs h + 2 ^ 32)%Z).
    { unfold Hash.step, Hash.shl5.
      pose proof (toInt32_range (Hash.toInt32 h * 2 ^ 5)). lia. }
    rewrite length_cons, Nat2Z.inj_succ. lia.
Qed.

(** The hue computed from a name is a whole number of degrees from 0 to
    359, and the hash it comes from stays, in absolute value, below 2^32
    times the length of the name, so that for a name of up to 2^21 code
    units every addition of the loop is exact. *)
Theorem generateColorFromString_hue_in_range (key : list Z) :
  Forall (fun c => 0 <= c < 65536)%Z key ->
  (0 <= Hash.hue key < 360)%Z
  /\ (Z.abs (Hash.hash key) <= Z.of_nat (length key) * 2 ^ 32)%Z
  /\ generateColorFromString key
     = {| border := "hsl(" ++ Hash.show (Hash.hue key) ++ ", 70%, 45%)";
          background := "hsla(" ++ Hash.show (Hash.hue key) ++ ", 70%, 45%, 0.2)" |}.
Proof.
  intros Hk. split; [|split; [|reflexivity]].
  - unfold Hash.hue. apply Z.mod_pos_bound. lia.
  - pose proof (hash_fold_bound key 0 Hk) as H. unfold Hash.hash. simpl Z.abs in H. lia.
Qed.

Lemma generateColorFromString_hue_in_range_witness :
  (0 <= Hash.hue (asciiUnits "99999") < 360)%Z
  /\ (Z.abs (Hash.hash (asciiUnits "99999"))
      <= Z.of_nat (length (asciiUnits "99999")) * 2 ^ 32)%Z
  /\ generateColorFromString (asciiUnits "99999")
     = {| border := "hsl(" ++ Hash.show (Hash.hue (asciiUnits "99999")) ++ ", 70%, 45%)";
          background :=
            "hsla(" ++ Hash.show (Hash.hue (asciiUnits "99999")) ++ ", 70%, 45%, 0.2)" |}.
Proof.
  apply (generateColorFromString_hue_in_range (asciiUnits "99999")).
  simpl. repeat constructor; lia.
Defined.

(** As long as the hash fits in 27 bits, a turn of the loop multiplies it
    by 31 and adds the code unit: the shift does not wrap around. *)
Theorem hash_is_base_31 (h c : Z) :
  (- 2 ^ 26 <= h < 2 ^ 26)%Z ->
  Hash.step h c = (c + 31 * h)%Z.
Proof.
  intros Hh. unfold Hash.step, Hash.shl5.
  rewrite (toInt32_small h) by lia. rewrite toInt32_small by lia. lia.
Qed.

Lemma hash_is_base_31_witness : Hash.step 57 57 = (57 + 31 * 57)%Z.
Proof. apply (hash_is_base_31 57 57). lia. Defined.

(** ** The chips of the selected regions *)

Lemma filter_map_comm {X Y : Type} (f : X -> Y) (g : Y -> bool) (l : list X) :
  map f (List.filter (fun x => g (f x)) l) = List.filter g (map f l).
Proof.
  induction l as [|h t IH]; simpl; [reflexivity|].
  destruct (g (f h)); simpl; now rewrite IH.
Qed.

(** In a session driven by the widgets, the chips under the region select
    are the selected regions, each once: their codes are the selection,
    rearranged in the order of the list of regions. *)
Theorem region_chips_are_the_selection (Number : string -> float) (apiKey : option string)
    (evs : list Event) :
  forallb fromWidgets evs = true ->
  let selected := selectedMsas (fst (run Number apiKey evs initialState)) in
  Permutation (map msa_cbsa (regionChips MSAS selected)) selected
  /\ length (regionChips MSAS selected) = length selected.
Proof.
  intros Hev selected.
  assert (Hinv : List.NoDup selected
                 /\ forall c, In c selected -> In c (map msa_cbsa MSAS)).
  { unfold selected.
    apply (run_invariant Number apiKey fromWidgets
             (fun s => List.NoDup (selectedMsas s)
                       /\ forall c, In c (selectedMsas s) -> In c (map msa_cbsa MSAS)));
      [|exact Hev|].
    - intros ev s Hw [Hnd Hsub]. destruct ev as [k|c| |prov]; cbn [step fst].
      + split; [exact Hnd | exact Hsub].
      + cbn [onToggleMsa withSelected selectedMsas]. split; [now apply toggle_NoDup|].
        intros x Hx. apply toggle_flips_one_region_aux in Hx as [->|Hx]; [|now apply Hsub].
        now apply existsb_eqb_In.
      + cbn [onClearAll withSelected selectedMsas]. split; [constructor | contradiction].
      + rewrite (proj1 (effect_selection Number apiKey prov s)). now split.
    - cbn [initialState selectedMsas]. split.
      + constructor; [|constructor; [tauto | constructor]].
        intros [H|[]]. discriminate.
      + intros c [<-|[<-|[]]]; simpl; tauto. }
  destruct Hinv as [Hnd Hsub].
  assert (Hperm : Permutation (map msa_cbsa (regionChips MSAS selected)) selected).
  { unfold regionChips.
    rewrite (filter_map_comm msa_cbsa (fun c => existsb (String.eqb c) selected) MSAS).
    apply Stdlib.Sorting.Permutation.NoDup_Permutation; [|exact Hnd|].
    - apply List.NoDup_filter. simpl.
      repeat (constructor; [simpl; intuition discriminate|]). constructor.
    - intros c. rewrite List.filter_In, existsb_eqb_In. split; [tauto|].
      intros Hc. split; [now apply Hsub | exact Hc]. }
  split; [exact Hperm|].
  rewrite <- (List.length_map msa_cbsa). now apply Permutation_length.
Qed.

Lemma region_chips_are_the_selection_witness :
  let selected :=
    selectedMsas (fst (run Decimal.Number Sample.apiKey
                         [ToggleMsa "12060"; ToggleMsa "33100"] initialState)) in
  Permutation (map msa_cbsa (regionChips MSAS selected)) selected
  /\ length (regionChips MSAS selected) = length selected.
Proof.
  apply (region_chips_are_the_selection Decimal.Number Sample.apiKey
           [ToggleMsa "12060"; ToggleMsa "33100"]).
  reflexivity.
Defined.

(** ** From discovery to the plan *)

(** When the search for a selected region without a static override and
    without an id returns candidates of which the pick function chooses a
    non-empty id, and no search of the run is rejected, the run records
    that id for the region and the region is planned under it from then
    on, instead of the id of the naming pattern. *)
Theorem discovered_id_is_planned (Number : string -> float) (prov : Provider) (st : State)
    (c : string) (text : string -> string)
    (pick : list SeriesItem -> PickCtx -> option string)
    (items : list SeriesItem) (v : string) :
  let k := indicatorKey st in
  let p := planOne k (seriesIdMap st) c in
  needsDiscovery (INDICATORS k) = true ->
  searchText (INDICATORS k) = Some text ->
  pickSeries (INDICATORS k) = Some pick ->
  In c (selectedMsas st) ->
  SERIES_OVERRIDES !! overrideKey k c = None ->
  seriesIdMap st !! overrideKey k c = None ->
  search prov (text (msaName p)) = HttpOk (Some items) ->
  items <> [] ->
  pick items {| ctx_cbsa := c; ctx_msaName := msaName p |} = Some v ->
  v <> "" ->
  (forall q, search prov q <> Rejected) ->
  seriesIdMap (fst (fetchMissing Number prov st)) !! overrideKey k c = Some v
  /\ seriesId (planOne k (seriesIdMap (fst (fetchMissing Number prov st))) c) = v.
Proof.
  intros k p Hn Htext Hpick Hsel Hstatic Hdyn Hsearch Hitems Hv Hne Hrej.
  assert (Hp : In p (plannedSeries st)).
  { unfold plannedSeries, plannedSeriesOf. now apply List.in_map. }
  assert (Hone : snd (discoverOne k (seriesIdMap st) prov p)
                 = Some (Some (overrideKey k c, v))).
  { unfold discoverOne. cbn [cbsa p planOne]. rewrite Hdyn. cbn [truthy].
    rewrite Htext. cbn [snd]. fold p. rewrite Hsearch.
    change (default [] (Some items)) with items.
    destruct items as [|i0 rest]; [congruence|]. cbn [isEmpty].
    rewrite Hpick. cbn [msaName] in Hv. rewrite Hv.
    destruct (String.eqb_spec v ""); [contradiction | reflexivity]. }
  destruct (discovery_resolves prov st Hrej) as [ds Hds].
  assert (Hmap : discoveredMap st ds !! overrideKey k c = Some v).
  { pose proof Hds as Hds'. unfold discoveriesOf in Hds'. fold k in Hds'.
    rewrite Hn in Hds'. apply allResolved_Some in Hds'.
    assert (Hin : In (overrideKey k c, v) (nonNull ds)).
    { apply nonNull_In.
      assert (Hs : In (Some (Some (overrideKey k c, v))) (map Some ds)).
      { rewrite <- Hds'. apply List.in_map_iff. exists p. auto. }
      apply List.in_map_iff in Hs as (e & [= ->] & He). exact He. }
    unfold discoveredMap.
    destruct (nonNull ds) as [|e es] eqn:Hnn; [contradiction|]. cbn [isEmpty].
    rewrite <- Hnn in *. clear Hnn.
    destruct (insertAll_is_Some_in (nonNull ds) (seriesIdMap st) (overrideKey k c))
      as [v' Hl].
    { apply List.in_map_iff. exists (overrideKey k c, v). auto. }
    rewrite Hl. f_equal.
    apply insertAll_lookup in Hl as [Hl|Hl]; [congruence|].
    apply nonNull_In in Hl.
    assert (Hs : In (Some (Some (overrideKey k c, v'))) (map Some ds))
      by now apply List.in_map.
    rewrite <- Hds' in Hs. apply List.in_map_iff in Hs as (p' & Hp' & Hin').
    pose proof (discoverOne_key _ _ _ _ _ _ Hp') as Hkey.
    apply overrideKey_inj in Hkey.
    unfold plannedSeries, plannedSeriesOf in Hin'.
    apply List.in_map_iff in Hin' as (c' & <- & _).
    cbn [cbsa planOne] in Hkey. subst c'. fold k in Hp'. fold p in Hp'.
    rewrite Hone in Hp'. now injection Hp'. }
  assert (Hst : seriesIdMap (fst (fetchMissing Number prov st)) = discoveredMap st ds).
  { rewrite fetchMissing_eq, Hds. destruct (isEmpty _); [reflexivity|].
    now destruct (resultsOf Number prov st). }
  rewrite Hst. split; [exact Hmap|].
  unfold planOne. cbn [seriesId]. fold k. rewrite Hstatic, Hmap.
  cbn [orString]. destruct (String.eqb_spec v ""); [contradiction | reflexivity].
Qed.

Lemma discovered_id_is_planned_witness :
  seriesIdMap (fst (fetchMissing Decimal.Number Demo.finds Sample.atlantaState))
    !! overrideKey EMP_RATE "12060" = Some "LAUMT131206000000003"
  /\ seriesId
       (planOne EMP_RATE
          (seriesIdMap (fst (fetchMissing Decimal.Number Demo.finds Sample.atlantaState)))
          "12060")
     = "LAUMT131206000000003".
Proof.
  apply (discovered_id_is_planned Decimal.Number Demo.finds Sample.atlantaState "12060"
           (fun msaName => msaName ++ " Unemployment Rate") EMP_RATE_pickSeries
           Demo.unemployment "LAUMT131206000000003").
  - reflexivity.
  - reflexivity.
  - reflexivity.
  - simpl. left. reflexivity.
  - reflexivity.
  - reflexivity.
  - reflexivity.
  - discriminate.
  - reflexivity.
  - discriminate.
  - intros q. simpl. discriminate.
Defined.

(** ** The static overrides in the plan *)

(** A region with a static override under the current indicator is
    planned under the overridden id, whatever id has been discovered for
    it, and that id is not empty. *)
Theorem override_decides_planned_id (st : State) (p : Planned) (v : string) :
  In p (plannedSeries st) ->
  SERIES_OVERRIDES !! overrideKey (indicatorKey st) (cbsa p) = Some v ->
  seriesId p = v /\ v <> "".
Proof.
  intros Hp Hv. unfold plannedSeries, plannedSeriesOf in Hp.
  apply List.in_map_iff in Hp as (c & <- & _). cbn [cbsa planOne] in Hv.
  split; [now apply static_override_wins|].
  now apply (static_override_truthy (overrideKey (indicatorKey st) c)).
Qed.

Lemma override_decides_planned_id_witness :
  seriesId (planOne HOUSING_HPI (seriesIdMap Demo.overriddenState) "33100")
    = "ACTLISCOU33100"
  /\ "ACTLISCOU33100" <> "".
Proof.
  apply (override_decides_planned_id Demo.overriddenState
           (planOne HOUSING_HPI (seriesIdMap Demo.overriddenState) "33100")
           "ACTLISCOU33100").
  - simpl. left. reflexivity.
  - reflexivity.
Defined.
